(** * github-analysis: path filter, sanitizer, repository fetcher and
      request handler

    A shallow embedding of [functions.py] and [app.py].

    Python [str] values are modelled by [string]; an [ascii] stands for one
    code point below 256, so the model covers texts in the Latin-1 range.
    On that range [lower], [isspace] and the two regular expressions of
    [clean_input] are the ones of CPython. *)

From Stdlib Require Import String Ascii List ZArith NArith Lia Bool.
From Stdlib Require Import DecimalString Permutation.
From Equations Require Import Equations.
Import ListNotations.
Open Scope string_scope.
Set Warnings "-register-all".

(** ** Python string operations used by the program *)

Module Str.

(** [str.lower] on one code point: A-Z and the Latin-1 capitals
    U+00C0..U+00DE (the multiplication sign U+00D7 apart) move by 32. *)
Definition lower_char (c : ascii) : ascii :=
  let n := N_of_ascii c in
  if ((65 <=? n) && (n <=? 90)
      || (192 <=? n) && (n <=? 222) && negb (n =? 215))%N
  then ascii_of_N (n + 32) else c.

Fixpoint lower (s : string) : string :=
  match s with
  | "" => ""
  | String c s' => String (lower_char c) (lower s')
  end.

(** [s.split(sep)] for a one-character separator: never empty, one more
    part than there are separators. *)
Fixpoint split (sep : ascii) (s : string) : list string :=
  match s with
  | "" => [""]
  | String c s' =>
      if Ascii.eqb c sep then "" :: split sep s'
      else match split sep s' with
           | [] => [String c ""]
           | p :: ps => String c p :: ps
           end
  end.

(** [x in parts] for a list of strings. *)
Definition mem (x : string) (l : list string) : bool :=
  existsb (String.eqb x) l.

(** [s.endswith(suffix)]. *)
Fixpoint endswith (s suffix : string) : bool :=
  String.eqb s suffix
  || match s with
     | "" => false
     | String _ s' => endswith s' suffix
     end.

(** [sub in s] for two strings: substring test. *)
Fixpoint contains (sub s : string) : bool :=
  prefix sub s
  || match s with
     | "" => false
     | String _ s' => contains sub s'
     end.

(** [str.isspace] on one code point below 256; this is also the class \s of
    [re] on [str] patterns. *)
Definition isspace (c : ascii) : bool :=
  let n := N_of_ascii c in
  ((9 <=? n) && (n <=? 13) || (28 <=? n) && (n <=? 32)
   || (n =? 133) || (n =? 160))%N.

Fixpoint lstrip (s : string) : string :=
  match s with
  | "" => ""
  | String c s' => if isspace c then lstrip s' else s
  end.

Fixpoint rstrip (s : string) : string :=
  match s with
  | "" => ""
  | String c s' =>
      match rstrip s' with
      | "" => if isspace c then "" else String c ""
      | r => String c r
      end
  end.

(** [s.strip()]. *)
Definition strip (s : string) : string := lstrip (rstrip s).

(** The characters of a string, for statements about its contents. *)
Definition chars (s : string) : list ascii := list_ascii_of_string s.

(** [str(n)] for an integer. *)
Definition of_int (n : Z) : string := NilZero.string_of_int (Z.to_int n).

End Str.

(** ** functions.py: constants *)

Definition SUPPORTED_FILE_EXTENSIONS : list string :=
  [ ".js"; ".jsx"; ".ts"; ".tsx";
    ".html"; ".htm";
    ".css"; ".scss"; ".sass";
    ".java"; ".cs";
    ".py"; ".sql";
    ".c"; ".cpp"; ".h"; ".hpp";
    ".vb"; ".aspx"; ".cshtml"; ".vbhtml" ].

Definition FORBIDDEN_FOLDERS : list string :=
  [ "node_modules";
    ".next";
    "__pycache__";
    "venv"; "env";
    "bin"; "obj";
    "build"; "dist";
    "target";
    "vendor";
    ".vs"; ".vscode";
    "packages";
    "bower_components";
    "jspm_packages";
    "tmp"; "temp";
    "logs";
    ".sass-cache";
    ".tsbuildinfo";
    "out";
    "Debug"; "Release";
    ".idea";
    ".gradle";
    "migrations" ].

(** ** functions.py: clean_input *)

(** The character class [\x00-\x1F\x7F-\x9F]: the control characters. *)
Definition is_control (c : ascii) : bool :=
  let n := N_of_ascii c in
  ((n <=? 31) || (127 <=? n) && (n <=? 159))%N.

(** [re.sub(r'[\x00-\x1F\x7F-\x9F]', '', text)]. *)
Fixpoint sub_control (text : string) : string :=
  match text with
  | "" => ""
  | String c s => if is_control c then sub_control s
                  else String c (sub_control s)
  end.

(** [re.sub(r'\s+', ' ', text)]: each maximal run of whitespace becomes one
    space. [in_run] tells that the character before was whitespace, so the
    run it belongs to has been replaced already. *)
Fixpoint sub_spaces_from (in_run : bool) (text : string) : string :=
  match text with
  | "" => ""
  | String c s =>
      if Str.isspace c
      then if in_run then sub_spaces_from true s
           else String " " (sub_spaces_from true s)
      else String c (sub_spaces_from false s)
  end.

Definition sub_spaces (text : string) : string := sub_spaces_from false text.

Definition clean_input (text : string) : string :=
  let text := sub_control text in
  let text := Str.strip (sub_spaces text) in
  text.

(** ** functions.py: should_process_path *)

Definition has_forbidden_part (path : string) : bool :=
  let path_parts := Str.split "/" (Str.lower path) in
  existsb (fun folder => Str.mem (Str.lower folder) path_parts)
          FORBIDDEN_FOLDERS.

Definition has_supported_extension (path : string) : bool :=
  existsb (fun ext => Str.endswith (Str.lower path) (Str.lower ext))
          SUPPORTED_FILE_EXTENSIONS.

Definition should_process_path (path : string) : bool :=
  if has_forbidden_part path then false
  else has_supported_extension path.

(** ** Exceptions and effects *)

(** An exception other than fastapi's [HTTPException]: a
    [github.GithubException] with its [status] and [str(e)], or any other
    one (IndexError, KeyError, a JSON or network error, ...) with [str(e)]. *)
Inductive error :=
| GithubException (status : Z) (text : string)
| Exception (text : string).

Inductive exn :=
| Plain (e : error)
| HTTPException (status_code : Z) (detail : string).

Definition str (e : error) : string :=
  match e with
  | GithubException _ text => text
  | Exception text => text
  end.

(** What a request does to the outside, in order. *)
Inductive event :=
| get_repo_call (full_name : string)
| get_contents_call (path : string)
| chain_run_call (prompt : string)
| print_call (line : string).

Definition trace := list event.

(** Computations: they read and extend the trace, and return a value or
    raise. *)
Definition M (A : Type) : Type := trace -> (exn + A) * trace.

Definition ret {A} (a : A) : M A := fun t => (inr a, t).
Definition raise {A} (e : exn) : M A := fun t => (inl e, t).
Definition bind {A B} (m : M A) (k : A -> M B) : M B :=
  fun t => match m t with
           | (inr a, t') => k a t'
           | (inl e, t') => (inl e, t')
           end.
Definition emit (ev : event) : M unit := fun t => (inr tt, (t ++ [ev])%list).
Definition lift {A} (r : exn + A) : M A := fun t => (r, t).
Definition try_except {A} (m : M A) (handler : exn -> M A) : M A :=
  fun t => match m t with
           | (inr a, t') => (inr a, t')
           | (inl e, t') => handler e t'
           end.

Notation "x <- m ;; k" := (bind m (fun x => k))
  (at level 61, m at next level, right associativity).
Notation "m ;;; k" := (bind m (fun _ => k))
  (at level 61, right associativity).

(** ** The hosting service *)

(** One entry of a listing, as PyGithub's [ContentFile] shows it to the
    program: its [type] is "dir" or not, and it has a [path]. A file carries
    the outcome of [base64.b64decode(content).decode('utf-8')]: the text, or
    the message of the exception raised. A directory carries the outcome of
    [repository.get_contents(path)]. *)
Inductive ContentFile :=
| file (path : string) (decoded : string + string)
| dir (path : string) (listing : error + list ContentFile).

Fixpoint weight (c : ContentFile) : nat :=
  match c with
  | file _ _ => 1
  | dir _ (inl _) => 1
  | dir _ (inr children) => S (list_sum (map weight children))
  end.

Definition weights (l : list ContentFile) : nat := list_sum (map weight l).

(** A repository: the outcome of [repository.get_contents("")]. *)
Record Repository := { root : error + list ContentFile }.

(** ** Values parsed from the model's answers *)

Inductive pyval :=
| PyNone
| PyBool (b : bool)
| PyInt (n : Z)
| PyFloat (repr : string)
| PyStr (s : string)
| PyList (items : list pyval)
| PyDict (items : list (string * pyval)).

Fixpoint lookup (key : string) (items : list (string * pyval)) : option pyval :=
  match items with
  | [] => None
  | (k, v) :: rest => if String.eqb k key then Some v else lookup key rest
  end.

(** [v[key]] for a string key: KeyError on a dict without the key, TypeError
    on anything that is not a dict. *)
Definition getitem (v : pyval) (key : string) : exn + pyval :=
  match v with
  | PyDict items =>
      match lookup key items with
      | Some x => inr x
      | None => inl (Plain (Exception ("'" ++ key ++ "'")))
      end
  | PyList _ =>
      inl (Plain (Exception "list indices must be integers or slices, not str"))
  | PyStr _ =>
      inl (Plain (Exception "string indices must be integers, not 'str'"))
  | PyNone => inl (Plain (Exception "'NoneType' object is not subscriptable"))
  | PyBool _ => inl (Plain (Exception "'bool' object is not subscriptable"))
  | PyInt _ => inl (Plain (Exception "'int' object is not subscriptable"))
  | PyFloat _ => inl (Plain (Exception "'float' object is not subscriptable"))
  end.

(** app.py: the two pydantic models. *)
Record AnalysisRequest := {
  github_url : string;
  curriculum : string;
  question_count : Z }.

Definition valid_request (r : AnalysisRequest) : Prop :=
  (1 <= question_count r <= 20)%Z.

Record AnalysisResponse := {
  alignment_score : Z;
  alignment_summary : string;
  questions_list : list (list (string * string)) }.

(** ** What the program takes from outside

    The hosting service, the model and the behaviour of the libraries the
    program calls. Every theorem below holds for every [Env]. *)
Record Env := {
  (** config.json *)
  GITHUB_ACCESS_TOKEN : string;
  (** [Github(token).get_repo(full_name)] *)
  get_repo : string -> string -> error + Repository;
  (** [chain.run(...)]: the answer to a prompt, given how many prompts were
      sent before in this request; [inl] is the message of an exception *)
  chain_run : nat -> string -> string + string;
  (** [json.loads]; [inl] is the message of the JSONDecodeError *)
  json_loads : string -> string + pyval;
  (** [str(v)] for a parsed value that is not a string *)
  str_of : pyval -> string;
  (** [AnalysisResponse(alignment_score=, alignment_summary=,
      questions_list=)]; [inl] is the message of the ValidationError *)
  new_AnalysisResponse : pyval -> pyval -> pyval -> string + AnalysisResponse }.

(** ** functions.py: fetch_github_code *)

Definition LF : string := String (ascii_of_nat 10) "".

(** [l[-k]] for k >= 1. *)
Definition index_from_end {A} (l : list A) (k : nat) : exn + A :=
  match (if (k <=? List.length l)%nat
         then nth_error l (List.length l - k) else None) with
  | Some x => inr x
  | None => inl (Plain (Exception "list index out of range"))
  end.

(** [parts = github_url.split('/'); owner, repo = parts[-2], parts[-1]] *)
Definition owner_and_repo (github_url : string) : exn + (string * string) :=
  let parts := Str.split "/" github_url in
  match index_from_end parts 2 with
  | inl e => inl e
  | inr owner =>
      match index_from_end parts 1 with
      | inl e => inl e
      | inr repo => inr (owner, repo)
      end
  end.

(** The test on a directory (line 90):
    [any(folder.lower() in file_content.path.lower() ...)], where [in] is
    between two strings. *)
Definition dir_is_forbidden (path : string) : bool :=
  existsb (fun folder => Str.contains (Str.lower folder) (Str.lower path))
          FORBIDDEN_FOLDERS.

(** What one accepted file adds to the text. *)
Definition segment (path file_data : string) : string :=
  "// File: " ++ path ++ LF ++ file_data ++ LF ++ LF.

Definition warning (path text : string) : string :=
  "Warning: Error decoding file " ++ path ++ ": " ++ text.

(** The loop [while contents: file_content = contents.pop(0) ...]. Each
    round takes the first entry away and a directory adds its children at
    the end, so the total weight of the queue goes down. *)
Equations? while_contents (contents : list ContentFile) (code_content : string)
    (t : trace) : (exn + string) * trace by wf (weights contents) lt :=
  while_contents [] code_content t := (inr code_content, t);
  while_contents (dir path listing :: contents) code_content t
    with dir_is_forbidden path := {
    | true := while_contents contents code_content t;
    | false with listing := {
      | inl e := (inl (Plain e), (t ++ [get_contents_call path])%list);
      | inr children :=
          while_contents (contents ++ children)%list code_content
                         (t ++ [get_contents_call path])%list } };
  while_contents (file path decoded :: contents) code_content t
    with should_process_path path := {
    | false := while_contents contents code_content t;
    | true with decoded := {
      | inr file_data :=
          while_contents contents (code_content ++ segment path file_data) t;
      | inl text :=
          while_contents contents code_content
                         (t ++ [print_call (warning path text)])%list } }.
Proof.
  all: unfold weights; simpl; try lia.
  - destruct listing; simpl; lia.
  - rewrite map_app, list_sum_app. lia.
Qed.

(** The [except GithubException as e] clause. *)
Definition on_GithubException (e : exn) : M string :=
  match e with
  | Plain (GithubException status text) =>
      if (status =? 401)%Z then
        raise (HTTPException 401
          "GitHub authentication failed. Please check your access token.")
      else if (status =? 404)%Z then
        raise (HTTPException 404
          "GitHub repository not found. Please check the URL.")
      else raise (HTTPException 500 ("GitHub API error: " ++ text))
  | _ => raise e
  end.

(** The body of the [try] block. *)
Definition fetch_body (env : Env) (token full_name : string) : M string :=
  emit (get_repo_call full_name) ;;;
  repository <- lift (match get_repo env token full_name with
                      | inl e => inl (Plain e)
                      | inr r => inr r
                      end) ;;
  emit (get_contents_call "") ;;;
  contents <- lift (match root repository with
                    | inl e => inl (Plain e)
                    | inr l => inr l
                    end) ;;
  code_content <- while_contents contents "" ;;
  if String.eqb code_content "" then
    raise (HTTPException 404 "No supported files found in the repository.")
  else ret code_content.

Definition fetch_github_code (env : Env) (github_url token : string)
  : M string :=
  owner_repo <- lift (owner_and_repo github_url) ;;
  let '(owner, repo) := owner_repo in
  try_except (fetch_body env token (owner ++ "/" ++ repo)) on_GithubException.

(** ** functions.py: analyze_code and generate_questions *)

(** [chain.run(...)] on the formatted prompt. *)
Definition is_chain_run (ev : event) : bool :=
  match ev with
  | chain_run_call _ => true
  | _ => false
  end.

(** How many prompts a trace has sent. *)
Definition sent (t : trace) : nat := List.length (filter is_chain_run t).

Definition run_chain (env : Env) (prompt : string) : M string :=
  fun t =>
    (match chain_run env (sent t) prompt with
     | inl text => inl (Plain (Exception text))
     | inr response => inr response
     end, (t ++ [chain_run_call prompt])%list).

Definition loads (env : Env) (response : string) : M pyval :=
  lift (match json_loads env response with
        | inl text => inl (Plain (Exception text))
        | inr v => inr v
        end).

(** A value put into a template. *)
Definition format_value (env : Env) (v : pyval) : string :=
  match v with
  | PyStr s => s
  | _ => str_of env v
  end.

Definition analyze_prompt (code requirement : string) : string :=
  "
    You are an expert code analyzer. Given the following code and requirement, 
    analyze the alignment between them. Provide an alignment score (0-100) and 
    a detailed summary explaining the alignment.

    Code:
    " ++ code ++ "

    Requirement:
    " ++ requirement ++ "

    Return your response as a JSON object with keys 'alignmentScore' and 'alignmentSummary', without any additional formatting or characters.
    ".

Definition analyze_code (env : Env) (code requirement : string) : M pyval :=
  response <- run_chain env (analyze_prompt code requirement) ;;
  loads env response.

Definition questions_prompt (code_summary requirement question_count : string)
  : string :=
  "
    Based on the following code summary and project requirement, generate " ++ question_count ++ " highly specific technical questions. 
    Each question must reference a particular function, file, or code section and ask how it addresses the given requirement. 
    Also the question should expect short answers which will be answered within 200 seconds.   
    For example, if the requirement mentions implementing two-factor authentication and the code contains a function 
    `implement2FactorAuthentication` in `authentication.ts`, the question should be: 
    'Can you explain how the `implement2FactorAuthentication` function in `authentication.ts` implements two-factor authentication?'

    For each question, provide a 1-2 line description of what the reviewer should check. The questions should focus on how 
    specific code elements solve the given requirements, ensuring key features, functions, or logic are covered.
    
    Code Summary:
    " ++ code_summary ++ "
    
    Requirement:
    " ++ requirement ++ "
    
    Ensure the questions address the specific implementation details mentioned in the requirement and match with the code.
    
    Return your response as a JSON array of objects, each with 'question' and 'lookingFor' keys, without any additional formatting or characters.
    ".

Definition generate_questions (env : Env) (code_summary : pyval)
    (requirement : string) (question_count : Z) : M pyval :=
  response <- run_chain env
                (questions_prompt (format_value env code_summary) requirement
                                  (Str.of_int question_count)) ;;
  loads env response.

(** ** app.py: analyse_github_code *)

(** What [except Exception as e] raises for an exception of text [text]. *)
Definition unexpected (text : string) : exn :=
  HTTPException 500 ("An unexpected error occurred: " ++ text).

(** The two [except] clauses of the handler. *)
Definition on_exception (e : exn) : M AnalysisResponse :=
  match e with
  | HTTPException _ _ => raise e
  | Plain e' => raise (unexpected (str e'))
  end.

Definition analyse_github_code (env : Env) (request : AnalysisRequest)
  : M AnalysisResponse :=
  try_except
    (let github_url := clean_input (github_url request) in
     let requirement := clean_input (curriculum request) in
     code_data <- fetch_github_code env github_url (GITHUB_ACCESS_TOKEN env) ;;
     analysis_result <- analyze_code env code_data requirement ;;
     summary <- lift (getitem analysis_result "alignmentSummary") ;;
     questions <- generate_questions env summary requirement
                                     (question_count request) ;;
     score <- lift (getitem analysis_result "alignmentScore") ;;
     summary <- lift (getitem analysis_result "alignmentSummary") ;;
     lift (match new_AnalysisResponse env score summary questions with
           | inl text => inl (Plain (Exception text))
           | inr response => inr response
           end))
    on_exception.

(** What the client of POST /analyse-github receives: 200 with the response,
    or the status and the detail of the HTTPException. An exception of
    another kind would leave the handler as a bare server error. *)
Inductive reply :=
| Success (body : AnalysisResponse)
| Failure (status : Z) (detail : string)
| Crash (e : error).

Definition post_analyse_github (env : Env) (request : AnalysisRequest)
    (t : trace) : reply * trace :=
  match analyse_github_code env request t with
  | (inr response, t') => (Success response, t')
  | (inl (HTTPException status detail), t') => (Failure status detail, t')
  | (inl (Plain e), t') => (Crash e, t')
  end.

(** ** A concrete environment

    Instances of the library behaviours, to run the program on examples: a
    JSON reader for the fragment without escapes in strings and without
    fractions and exponents in numbers, whose messages name the kind of the
    error and not its position, and a response model that takes values of
    the declared types as they are. *)

Module Sample.

Definition is_json_space (c : ascii) : bool :=
  let n := N_of_ascii c in ((n =? 32) || (n =? 9) || (n =? 10) || (n =? 13))%N.

Fixpoint skip (s : string) : string :=
  match s with
  | String c s' => if is_json_space c then skip s' else s
  | "" => ""
  end.

(** The double quote. *)
Definition dquote : ascii := ascii_of_nat 34.

(** A text written with ' where it has the double quote. *)
Fixpoint dq (s : string) : string :=
  match s with
  | "" => ""
  | String c s' => String (if Ascii.eqb c "'" then dquote else c) (dq s')
  end.

Definition digit_of (c : ascii) : option Z :=
  let n := N_of_ascii c in
  if ((48 <=? n) && (n <=? 57))%N then Some (Z.of_N (n - 48)) else None.

(** Digits after the first one: the value so far, then the rest. *)
Fixpoint digits (acc : Z) (s : string) : Z * string :=
  match s with
  | String c s' =>
      match digit_of c with
      | Some d => digits (10 * acc + d) s'
      | None => (acc, s)
      end
  | "" => (acc, "")
  end.

Definition starts_with_digit (s : string) : bool :=
  match s with
  | String c _ => match digit_of c with Some _ => true | None => false end
  | "" => false
  end.

(** A fraction [.d] or an exponent [e d], [e+d], [e-d] comes next. *)
Definition float_follows (s : string) : bool :=
  match s with
  | String "." s' => starts_with_digit s'
  | String "e" s' | String "E" s' =>
      match s' with
      | String "+" s2 | String "-" s2 => starts_with_digit s2
      | _ => starts_with_digit s'
      end
  | _ => false
  end.

(** [0] or a digit from 1 to 9 followed by digits; a number with a fraction
    or an exponent is outside the fragment. *)
Definition natural (s : string) : option (Z * string) :=
  match s with
  | String c s' =>
      match digit_of c with
      | Some d =>
          let '(n, rest) := if (d =? 0)%Z then (0%Z, s') else digits d s' in
          if float_follows rest then None else Some (n, rest)
      | None => None
      end
  | "" => None
  end.

(** The characters up to the closing quote; no escapes, no control
    characters. *)
Fixpoint quoted (s : string) : option (string * string) :=
  match s with
  | "" => None
  | String c s' =>
      if Ascii.eqb c dquote then Some ("", s')
      else if Ascii.eqb c "\" then None
      else if (N_of_ascii c <? 32)%N then None
      else match quoted s' with
           | Some (x, rest) => Some (String c x, rest)
           | None => None
           end
  end.

(** [d[key] = v] on a dict under construction: a key read twice keeps its
    place and takes the last value. *)
Fixpoint dict_set (key : string) (v : pyval) (items : list (string * pyval))
  : list (string * pyval) :=
  match items with
  | [] => [(key, v)]
  | (k, x) :: rest =>
      if String.eqb k key then (k, v) :: rest
      else (k, x) :: dict_set key v rest
  end.

Fixpoint value (fuel : nat) (s : string) : option (pyval * string) :=
  match fuel with
  | O => None
  | S fuel' =>
      let elements :=
        fix elements (k : nat) (acc : list pyval) (s : string)
          : option (pyval * string) :=
          match k with
          | O => None
          | S k' =>
              match value fuel' s with
              | Some (v, rest) =>
                  match skip rest with
                  | String "," rest' => elements k' (acc ++ [v])%list rest'
                  | String "]" rest' => Some (PyList (acc ++ [v])%list, rest')
                  | _ => None
                  end
              | None => None
              end
          end in
      let members :=
        fix members (k : nat) (acc : list (string * pyval)) (s : string)
          : option (pyval * string) :=
          match k with
          | O => None
          | S k' =>
              match skip s with
              | String (Ascii false true false false false true false false) s1 =>
                  match quoted s1 with
                  | Some (key, s2) =>
                      match skip s2 with
                      | String ":" s3 =>
                          match value fuel' s3 with
                          | Some (v, rest) =>
                              match skip rest with
                              | String "," rest' =>
                                  members k' (dict_set key v acc) rest'
                              | String "}" rest' =>
                                  Some (PyDict (dict_set key v acc), rest')
                              | _ => None
                              end
                          | None => None
                          end
                      | _ => None
                      end
                  | None => None
                  end
              | _ => None
              end
          end in
      match skip s with
      | String "n" (String "u" (String "l" (String "l" rest))) =>
          Some (PyNone, rest)
      | String "t" (String "r" (String "u" (String "e" rest))) =>
          Some (PyBool true, rest)
      | String "f" (String "a" (String "l" (String "s" (String "e" rest)))) =>
          Some (PyBool false, rest)
      | String (Ascii false true false false false true false false) s1 =>
          match quoted s1 with
          | Some (x, rest) => Some (PyStr x, rest)
          | None => None
          end
      | String "[" s1 =>
          match skip s1 with
          | String "]" rest => Some (PyList [], rest)
          | _ => elements (String.length s1) [] s1
          end
      | String "{" s1 =>
          match skip s1 with
          | String "}" rest => Some (PyDict [], rest)
          | _ => members (String.length s1) [] s1
          end
      | String "-" s1 =>
          match natural s1 with
          | Some (n, rest) => Some (PyInt (- n), rest)
          | None => None
          end
      | s1 =>
          match natural s1 with
          | Some (n, rest) => Some (PyInt n, rest)
          | None => None
          end
      end
  end.

Definition loads_lite (s : string) : string + pyval :=
  match value (S (String.length s)) s with
  | Some (v, rest) =>
      match skip rest with
      | "" => inr v
      | _ => inl "Extra data"
      end
  | None => inl "Expecting value"
  end.

Fixpoint all_some {A B} (f : A -> option B) (l : list A) : option (list B) :=
  match l with
  | [] => Some []
  | x :: r =>
      match f x, all_some f r with
      | Some y, Some ys => Some (y :: ys)
      | _, _ => None
      end
  end.

Definition str_item (kv : string * pyval) : option (string * string) :=
  match kv with
  | (k, PyStr s) => Some (k, s)
  | _ => None
  end.

Definition str_dict (v : pyval) : option (list (string * string)) :=
  match v with
  | PyDict items => all_some str_item items
  | _ => None
  end.

(** An int, a str and a list of dicts from str to str are taken as they
    are; anything else is refused here (pydantic may convert some of it). *)
Definition typed_response (score summary questions : pyval)
  : string + AnalysisResponse :=
  match score, summary, questions with
  | PyInt n, PyStr s, PyList qs =>
      match all_some str_dict qs with
      | Some l => inr {| alignment_score := n;
                         alignment_summary := s;
                         questions_list := l |}
      | None => inl "validation error for AnalysisResponse"
      end
  | _, _, _ => inl "validation error for AnalysisResponse"
  end.

(** [str(v)] of the values whose text has one form. *)
Definition str_lite (v : pyval) : string :=
  match v with
  | PyNone => "None"
  | PyBool true => "True"
  | PyBool false => "False"
  | PyInt n => Str.of_int n
  | PyFloat r => r
  | PyStr s => s
  | PyList _ => "[...]"
  | PyDict _ => "{...}"
  end.

(** An environment with one repository and a model that answers the
    prompts of a request in turn. *)
Definition env (repository : error + Repository) (answers : list (string + string))
  : Env :=
  {| GITHUB_ACCESS_TOKEN := "token";
     get_repo := fun _ _ => repository;
     chain_run := fun sent _ => nth sent answers (inl "no answer");
     json_loads := loads_lite;
     str_of := str_lite;
     new_AnalysisResponse := typed_response |}.

End Sample.

(** ** Notions used in the statements *)

(** No two whitespace characters next to each other. *)
Fixpoint no_space_run (s : string) : bool :=
  match s with
  | String c1 ((String c2 _) as s') =>
      negb (Str.isspace c1 && Str.isspace c2) && no_space_run s'
  | _ => true
  end.

Definition first_char (s : string) : option ascii :=
  match s with
  | String c _ => Some c
  | "" => None
  end.

Fixpoint last_char (s : string) : option ascii :=
  match s with
  | "" => None
  | String c "" => Some c
  | String _ s' => last_char s'
  end.

(** The files of an entry and of a queue, with the directories opened
    whatever their names. *)
Fixpoint files_of (c : ContentFile) : list (string * (string + string)) :=
  match c with
  | file p d => [(p, d)]
  | dir _ (inl _) => []
  | dir _ (inr children) => flat_map files_of children
  end.

Definition all_files (l : list ContentFile) : list (string * (string + string)) :=
  flat_map files_of l.

(** The files that lie below a directory the loop does not open. *)
Fixpoint unopened_files (c : ContentFile) : list (string * (string + string)) :=
  match c with
  | file _ _ => []
  | dir _ (inl _) => []
  | dir p (inr children) =>
      if dir_is_forbidden p then flat_map files_of children
      else flat_map unopened_files children
  end.

(** Every directory that the loop opens can be listed. *)
Fixpoint listable (c : ContentFile) : bool :=
  match c with
  | file _ _ => true
  | dir p l =>
      dir_is_forbidden p
      || match l with
         | inl _ => false
         | inr children => forallb listable children
         end
  end.

(** A file accepted by the path filter. *)
Definition qualifies (f : string * (string + string)) : bool :=
  should_process_path (fst f).

Definition decodes (f : string * (string + string)) : bool :=
  match snd f with
  | inr _ => true
  | inl _ => false
  end.

(** The text made of the segments of a list of files. *)
Fixpoint segments (l : list (string * string)) : string :=
  match l with
  | [] => ""
  | (p, text) :: r => segment p text ++ segments r
  end.

Definition decoded_as (f : string * string) : string * (string + string) :=
  (fst f, inr (snd f)).

(** [text.split()]: the words of a text, its maximal runs of characters
    that are not whitespace. *)
Fixpoint words (s : string) : list string :=
  match s with
  | "" => []
  | String c s' =>
      if Str.isspace c then words s'
      else match s' with
           | "" => [String c ""]
           | String d _ =>
               if Str.isspace d then String c "" :: words s'
               else match words s' with
                    | w :: r => String c w :: r
                    | [] => [String c ""]
                    end
           end
  end.

(** [" ".join(text.split())]. *)
Definition joined_words (s : string) : string := String.concat " " (words s).

(** How often [sub] starts in [s]. *)
Fixpoint occurrences (sub s : string) : nat :=
  (if prefix sub s then 1 else 0)
  + match s with
    | "" => 0
    | String _ s' => occurrences sub s'
    end.

(** ** Scenarios *)

Module Scenario.

Definition undecodable : string + string :=
  inl "'utf-8' codec can't decode byte 0xff in position 0: invalid start byte".

(** Three accepted files, of which one does not decode and one lies in a
    directory named environment; two files that the filter refuses. *)
Definition mixed : list ContentFile :=
  [ file "bad.py" undecodable;
    dir "environment" (inr [file "environment/main.py" (inr "print(1)")]);
    dir "node_modules" (inr [file "node_modules/x.js" (inr "x")]);
    file "README.md" (inr "# doc");
    file "ok.py" (inr "pass") ].

(** Three accepted files and two refused ones. *)
Definition sources : list ContentFile :=
  [ dir "src" (inr [file "src/a.py" (inr "A"); file "src/B.JS" (inr "B")]);
    file "README.md" (inr "# doc");
    dir "node_modules" (inr [file "node_modules/x.js" (inr "x")]);
    file "main.c" (inr "C") ].

(** No accepted file. *)
Definition documents : list ContentFile :=
  [ file "README.md" (inr "# doc");
    dir "docs" (inr [file "docs/guide.txt" (inr "guide")]) ].

(** One file that does not decode, one that does. *)
Definition partly : list ContentFile :=
  [ file "bad.py" undecodable; file "ok.py" (inr "pass") ].

(** A directory whose listing fails with the given status. *)
Definition failing (status : Z) : list ContentFile :=
  [ file "a.py" (inr "A");
    dir "lib" (inl (GithubException status "upstream said no")) ].

Definition repository (contents : list ContentFile) : error + Repository :=
  inr {| root := inr contents |}.

Definition url : string := "https://github.com/owner/repo".

Definition request (count : Z) : AnalysisRequest :=
  {| github_url := "  https://github.com/owner/repo ";
     curriculum := "implement login with 2FA";
     question_count := count |}.

Definition analysis : string :=
  Sample.dq "{'alignmentScore': 80, 'alignmentSummary': 'close'}".

Definition two_questions : string :=
  Sample.dq "[{'question': 'q1', 'lookingFor': 'l1'}, {'question': 'q2', 'lookingFor': 'l2'}]".

(** The text fetched from [sources]. *)
Definition sources_text : string :=
  segments [("main.c", "C"); ("src/a.py", "A"); ("src/B.JS", "B")].

(** An analysis without a score. *)
Definition summary_only : string :=
  Sample.dq "{'alignmentSummary': 'close'}".

Definition answers : list (string + string) :=
  [ inr analysis; inr two_questions ].

End Scenario.

(** ** functions.py: start-up, lines 12 to 21 *)

(** The truth value of a parsed value: [not v] is its negation. A float is
    false when it is zero, that is when its [repr] is 0.0 or -0.0. *)
Definition truthy (v : pyval) : bool :=
  match v with
  | PyNone => false
  | PyBool b => b
  | PyInt n => negb (n =? 0)%Z
  | PyFloat r => negb (String.eqb r "0.0" || String.eqb r "-0.0")
  | PyStr s => negb (String.eqb s "")
  | PyList [] => false
  | PyList (_ :: _) => true
  | PyDict [] => false
  | PyDict (_ :: _) => true
  end.

(** From the value that [json.load] read from config.json to the two
    tokens: both keys are read before either value is tested. *)
Definition load_tokens (config : pyval) : exn + (pyval * pyval) :=
  match getitem config "GITHUB_ACCESS_TOKEN" with
  | inl e => inl e
  | inr github_access_token =>
      match getitem config "OPENAI_API_KEY" with
      | inl e => inl e
      | inr openai_api_key =>
          if negb (truthy github_access_token) then
            inl (Plain (Exception
                   "GITHUB_ACCESS_TOKEN environment variable is not set"))
          else if negb (truthy openai_api_key) then
            inl (Plain (Exception
                   "OPENAI_API_KEY environment variable is not set"))
          else inr (github_access_token, openai_api_key)
      end
  end.

(** ** One level of the traversal *)

(** The children that the loop puts at the end of the queue for an entry. *)
Definition opened_children (c : ContentFile) : list ContentFile :=
  match c with
  | dir p (inr children) => if dir_is_forbidden p then [] else children
  | _ => []
  end.

Definition next_level (q : list ContentFile) : list ContentFile :=
  flat_map opened_children q.

(** What an entry adds to the text. *)
Definition entry_text (c : ContentFile) : string :=
  match c with
  | file p (inr file_data) =>
      if should_process_path p then segment p file_data else ""
  | _ => ""
  end.

Fixpoint level_text (q : list ContentFile) : string :=
  match q with
  | [] => ""
  | c :: rest => entry_text c ++ level_text rest
  end.

(** What an entry adds to the trace. *)
Definition entry_events (c : ContentFile) : list event :=
  match c with
  | file p (inl text) =>
      if should_process_path p then [print_call (warning p text)] else []
  | file _ (inr _) => []
  | dir p _ => if dir_is_forbidden p then [] else [get_contents_call p]
  end.

Definition level_events (q : list ContentFile) : list event :=
  flat_map entry_events q.

(** The entry is not a directory that the loop opens and cannot list. *)
Definition entry_listable (c : ContentFile) : bool :=
  match c with
  | dir p (inl _) => dir_is_forbidden p
  | _ => true
  end.

(** An event that is not a listing of a directory whose path has a
    deny-listed name in it. *)
Definition allowed_event (ev : event) : bool :=
  match ev with
  | get_contents_call p => negb (dir_is_forbidden p)
  | _ => true
  end.

(** A character that clean_input does not keep. *)
Definition blank (c : ascii) : bool := is_control c || Str.isspace c.

Fixpoint all_blank (s : string) : bool :=
  match s with
  | "" => true
  | String c s' => blank c && all_blank s'
  end.

(** * Properties *)

(** ** Strings *)

Lemma append_nil_r (s : string) : s ++ "" = s.
Proof. induction s; simpl; congruence. Qed.

Lemma append_assoc (a b c : string) : (a ++ b) ++ c = a ++ (b ++ c).
Proof. induction a; simpl; congruence. Qed.

Lemma lower_app (a b : string) :
  Str.lower (a ++ b) = Str.lower a ++ Str.lower b.
Proof. induction a; simpl; congruence. Qed.

Lemma endswith_refl (s : string) : Str.endswith s s = true.
Proof. destruct s; cbn [Str.endswith]; rewrite String.eqb_refl; reflexivity. Qed.

Lemma endswith_app (a b : string) : Str.endswith (a ++ b) b = true.
Proof.
  induction a as [|c a IH]; cbn [Str.endswith append].
  - apply endswith_refl.
  - rewrite IH. apply orb_true_r.
Qed.

Lemma endswith_inv (s suffix : string) :
  Str.endswith s suffix = true -> exists a, s = a ++ suffix.
Proof.
  induction s as [|c s IH]; cbn [Str.endswith]; intros H.
  - rewrite orb_false_r in H. apply String.eqb_eq in H. now exists "".
  - apply orb_true_iff in H. destruct H as [H|H].
    + apply String.eqb_eq in H. now exists "".
    + destruct (IH H) as [a ->]. now exists (String c a).
Qed.

Lemma mem_In (x : string) (l : list string) :
  Str.mem x l = true <-> In x l.
Proof.
  unfold Str.mem. rewrite existsb_exists. split.
  - intros [y [Hy E]]. apply String.eqb_eq in E. now subst.
  - intros H. exists x. split; [assumption | apply String.eqb_refl].
Qed.

Lemma split_not_nil (sep : ascii) (s : string) : Str.split sep s <> [].
Proof.
  destruct s as [|c s]; simpl; [discriminate|].
  destruct (Ascii.eqb c sep); [discriminate|].
  destruct (Str.split sep s); discriminate.
Qed.

(** Splitting a text that has a separator in the middle. *)
Lemma split_app (sep : ascii) (a b : string) :
  Str.split sep (a ++ String sep b)
  = (Str.split sep a ++ Str.split sep b)%list.
Proof.
  induction a as [|c a IH]; simpl.
  - rewrite Ascii.eqb_refl. reflexivity.
  - destruct (Ascii.eqb c sep).
    + rewrite IH. reflexivity.
    + rewrite IH. pose proof (split_not_nil sep a) as Hn.
      destruct (Str.split sep a); [contradiction | reflexivity].
Qed.

(** ** The path filter *)

Lemma has_forbidden_part_true (path : string) :
  has_forbidden_part path = true
  <-> exists folder, In folder FORBIDDEN_FOLDERS
                     /\ In (Str.lower folder) (Str.split "/" (Str.lower path)).
Proof.
  unfold has_forbidden_part. rewrite existsb_exists.
  split; intros [f [Hf H]]; exists f; split; auto; now apply mem_In.
Qed.

Lemma has_supported_extension_true (path : string) :
  has_supported_extension path = true
  <-> exists ext stem, In ext SUPPORTED_FILE_EXTENSIONS
                       /\ Str.lower path = stem ++ Str.lower ext.
Proof.
  unfold has_supported_extension. rewrite existsb_exists. split.
  - intros [ext [Hin H]]. apply endswith_inv in H. destruct H as [a Ha].
    now exists ext, a.
  - intros [ext [stem [Hin H]]]. exists ext. split; [assumption|].
    rewrite H. apply endswith_app.
Qed.

(** The filter looks at the lower-case path only. *)
Lemma should_process_path_lower (p q : string) :
  Str.lower p = Str.lower q -> should_process_path p = should_process_path q.
Proof.
  intros E. unfold should_process_path, has_forbidden_part,
    has_supported_extension. rewrite E. reflexivity.
Qed.

(** C2. A path that has a deny-listed folder name among the parts of its
    lower-case form, the names compared in lower case, is refused by
    should_process_path, whatever its extension. *)
Theorem forbidden_part_rejected (path folder : string) :
  In folder FORBIDDEN_FOLDERS ->
  In (Str.lower folder) (Str.split "/" (Str.lower path)) ->
  should_process_path path = false.
Proof.
  intros Hf Hp. unfold should_process_path.
  replace (has_forbidden_part path) with true; [reflexivity|].
  symmetry. apply has_forbidden_part_true. now exists folder.
Qed.

Lemma forbidden_part_rejected_witness :
  should_process_path "src/Release/Main.PY" = false.
Proof.
  apply (forbidden_part_rejected "src/Release/Main.PY" "Release").
  - unfold FORBIDDEN_FOLDERS. simpl. tauto.
  - vm_compute. tauto.
Defined.

(** C3. A path made of a stem and an extension that is in
    SUPPORTED_FILE_EXTENSIONS, compared in lower case, and with no
    deny-listed folder name among its parts, is accepted; and two paths
    that differ in the letter case of the extension only get the same
    answer. *)
Theorem supported_extension_accepted :
  (forall stem ext : string,
      In (Str.lower ext) (map Str.lower SUPPORTED_FILE_EXTENSIONS) ->
      (forall folder, In folder FORBIDDEN_FOLDERS ->
         ~ In (Str.lower folder)
              (Str.split "/" (Str.lower (stem ++ ext)))) ->
      should_process_path (stem ++ ext) = true)
  /\ (forall stem ext ext' : string,
      Str.lower ext = Str.lower ext' ->
      should_process_path (stem ++ ext) = should_process_path (stem ++ ext')).
Proof.
  split.
  - intros stem ext Hext Hfolders. unfold should_process_path.
    destruct (has_forbidden_part (stem ++ ext)) eqn:F.
    + apply has_forbidden_part_true in F. destruct F as [f [Hf Hin]].
      exfalso. exact (Hfolders f Hf Hin).
    + apply has_supported_extension_true.
      apply in_map_iff in Hext. destruct Hext as [e [He Hin]].
      exists e, (Str.lower stem). split; [assumption|].
      rewrite lower_app. congruence.
  - intros stem ext ext' E. apply should_process_path_lower.
    rewrite !lower_app. congruence.
Qed.

Lemma supported_extension_accepted_witness :
  should_process_path "src/app/Index.TSX" = true
  /\ should_process_path "src/app/Index.TSX"
     = should_process_path "src/app/Index.tsx".
Proof.
  split.
  - apply (proj1 supported_extension_accepted "src/app/Index" ".TSX").
    + vm_compute. tauto.
    + intros folder Hf Hin. vm_compute in Hf, Hin.
      repeat (destruct Hf as [<-|Hf];
              [repeat (destruct Hin as [Hin|Hin]; try discriminate Hin); exact Hin|]).
      exact Hf.
  - apply (proj2 supported_extension_accepted "src/app/Index" ".TSX" ".tsx").
    reflexivity.
Defined.

(** ** The sanitizer *)

Lemma sub_control_chars (s : string) :
  Forall (fun c => is_control c = false) (Str.chars (sub_control s)).
Proof.
  induction s as [|c s IH]; simpl; [constructor|].
  destruct (is_control c) eqn:E; [assumption|].
  constructor; assumption.
Qed.

Lemma sub_spaces_from_chars (P : ascii -> Prop) (b : bool) (s : string) :
  P " "%char -> Forall P (Str.chars s) ->
  Forall P (Str.chars (sub_spaces_from b s)).
Proof.
  intros Hsp. revert b. induction s as [|c s IH]; intros b H; simpl.
  - constructor.
  - inversion H as [|? ? Hc Hs]; subst.
    destruct (Str.isspace c), b; try constructor; auto.
Qed.

Lemma sub_spaces_from_spaces (b : bool) (s : string) :
  Forall (fun c => Str.isspace c = true -> c = " "%char)
         (Str.chars (sub_spaces_from b s)).
Proof.
  revert b. induction s as [|c s IH]; intros b; simpl.
  - constructor.
  - destruct (Str.isspace c) eqn:E.
    + destruct b; [apply IH|]. constructor; [reflexivity | apply IH].
    + constructor; [congruence | apply IH].
Qed.

Lemma sub_spaces_from_runs (b : bool) (s : string) :
  no_space_run (sub_spaces_from b s) = true
  /\ (b = true ->
      forall c, first_char (sub_spaces_from b s) = Some c ->
                Str.isspace c = false).
Proof.
  revert b. induction s as [|c s IH]; intros b.
  - simpl. split; [reflexivity | discriminate].
  - cbn [sub_spaces_from]. destruct (Str.isspace c) eqn:E.
    + destruct b.
      * apply IH.
      * split; [|discriminate].
        destruct (IH true) as [Hrun Hfirst].
        cbn [no_space_run].
        destruct (sub_spaces_from true s) as [|c2 r] eqn:R; [reflexivity|].
        rewrite (Hfirst eq_refl c2 eq_refl), andb_false_r. exact Hrun.
    + split.
      * cbn [no_space_run]. destruct (IH false) as [Hrun _].
        destruct (sub_spaces_from false s) as [|c2 r]; [reflexivity|].
        rewrite E. exact Hrun.
      * intros _ x Hx. simpl in Hx. congruence.
Qed.

Lemma lstrip_chars (P : ascii -> Prop) (s : string) :
  Forall P (Str.chars s) -> Forall P (Str.chars (Str.lstrip s)).
Proof.
  induction s as [|c s IH]; simpl; intros H; [constructor|].
  destruct (Str.isspace c); [|exact H].
  inversion H; subst. auto.
Qed.

Lemma rstrip_chars (P : ascii -> Prop) (s : string) :
  Forall P (Str.chars s) -> Forall P (Str.chars (Str.rstrip s)).
Proof.
  induction s as [|c s IH]; simpl; intros H; [constructor|].
  inversion H as [|? ? Hc Hs]; subst. specialize (IH Hs).
  destruct (Str.rstrip s) as [|c2 r].
  - destruct (Str.isspace c); repeat constructor; assumption.
  - constructor; assumption.
Qed.

Lemma strip_chars (P : ascii -> Prop) (s : string) :
  Forall P (Str.chars s) -> Forall P (Str.chars (Str.strip s)).
Proof. intros H. apply lstrip_chars, rstrip_chars, H. Qed.

Lemma no_space_run_tail (c : ascii) (s : string) :
  no_space_run (String c s) = true -> no_space_run s = true.
Proof.
  destruct s as [|c2 r]; [reflexivity|]. cbn [no_space_run].
  intros H. apply andb_true_iff in H. apply H.
Qed.

Lemma lstrip_runs (s : string) :
  no_space_run s = true -> no_space_run (Str.lstrip s) = true.
Proof.
  induction s as [|c s IH]; intros H; [reflexivity|].
  cbn [Str.lstrip]. destruct (Str.isspace c); [|exact H].
  apply IH. exact (no_space_run_tail _ _ H).
Qed.

Lemma rstrip_first (s : string) (c : ascii) (r : string) :
  Str.rstrip s = String c r -> exists r', s = String c r'.
Proof.
  destruct s as [|c1 s]; simpl; [discriminate|].
  destruct (Str.rstrip s).
  - destruct (Str.isspace c1); [discriminate|].
    intros H. injection H as -> _. now exists s.
  - intros H. injection H as -> _. now exists s.
Qed.

Lemma rstrip_runs (s : string) :
  no_space_run s = true -> no_space_run (Str.rstrip s) = true.
Proof.
  induction s as [|c s IH]; intros H; [reflexivity|].
  cbn [Str.rstrip]. destruct (Str.rstrip s) as [|c2 r] eqn:R.
  - destruct (Str.isspace c); reflexivity.
  - destruct (rstrip_first _ _ _ R) as [r' ->].
    cbn [no_space_run] in H |- *. apply andb_true_iff in H.
    destruct H as [H1 H2]. rewrite H1. exact (IH H2).
Qed.

Lemma lstrip_first (s : string) (c : ascii) :
  first_char (Str.lstrip s) = Some c -> Str.isspace c = false.
Proof.
  induction s as [|c1 s IH]; simpl; [discriminate|].
  destruct (Str.isspace c1) eqn:E; [exact IH|].
  simpl. congruence.
Qed.

Lemma rstrip_last (s : string) (c : ascii) :
  last_char (Str.rstrip s) = Some c -> Str.isspace c = false.
Proof.
  induction s as [|c1 s IH]; simpl; [discriminate|].
  destruct (Str.rstrip s) as [|c2 r].
  - destruct (Str.isspace c1) eqn:E; simpl; congruence.
  - exact IH.
Qed.

Lemma lstrip_last (s : string) :
  (forall c, last_char s = Some c -> Str.isspace c = false) ->
  forall c, last_char (Str.lstrip s) = Some c -> Str.isspace c = false.
Proof.
  induction s as [|c1 s IH]; intros H c; [discriminate|].
  cbn [Str.lstrip]. destruct (Str.isspace c1); [|apply H].
  apply IH. intros x Hx. apply H.
  destruct s; [discriminate | exact Hx].
Qed.

(** What stays of a text: its characters that are neither control
    characters nor whitespace, in their order. *)
Lemma clean_input_letters (text : string) :
  filter (fun c => negb (Str.isspace c)) (Str.chars (clean_input text))
  = filter (fun c => negb (is_control c) && negb (Str.isspace c))
           (Str.chars text).
Proof.
  unfold clean_input, Str.strip, sub_spaces.
  set (ns := fun c => negb (Str.isspace c)).
  assert (L : forall s, filter ns (Str.chars (Str.lstrip s))
                        = filter ns (Str.chars s)).
  { induction s as [|c s IH]; [reflexivity|]. cbn [Str.lstrip].
    destruct (Str.isspace c) eqn:E; [|reflexivity].
    simpl. unfold ns at 2. rewrite E. exact IH. }
  assert (R : forall s, filter ns (Str.chars (Str.rstrip s))
                        = filter ns (Str.chars s)).
  { induction s as [|c s IH]; [reflexivity|]. cbn [Str.rstrip].
    simpl (Str.chars (String c s)). cbn [filter]. rewrite <- IH.
    destruct (Str.rstrip s) as [|c2 r]; [|reflexivity].
    destruct (Str.isspace c) eqn:E; simpl; unfold ns; rewrite E; reflexivity. }
  assert (Hsub : forall b s, filter ns (Str.chars (sub_spaces_from b s))
                          = filter ns (Str.chars s)).
  { intros b s. revert b. induction s as [|c s IH]; intros b; [reflexivity|].
    cbn [sub_spaces_from]. simpl (Str.chars (String c s)). cbn [filter].
    destruct (Str.isspace c) eqn:E; unfold ns at 2; rewrite E; simpl.
    - destruct b; [apply IH|]. simpl. apply IH.
    - unfold ns at 1. rewrite E. simpl. f_equal. apply IH. }
  rewrite L, R, Hsub. clear.
  induction text as [|c s IH]; [reflexivity|]. simpl.
  destruct (is_control c); simpl; [exact IH|].
  unfold ns at 1. destruct (Str.isspace c); simpl; [exact IH|].
  f_equal. exact IH.
Qed.


(** ** The traversal *)

(** One round of the loop, as a plain case analysis. *)
Lemma while_contents_round (contents : list ContentFile) (code : string)
    (t : trace) :
  while_contents contents code t
  = match contents with
    | [] => (inr code, t)
    | dir path listing :: rest =>
        if dir_is_forbidden path then while_contents rest code t
        else match listing with
             | inl e => (inl (Plain e), (t ++ [get_contents_call path])%list)
             | inr children =>
                 while_contents (rest ++ children)%list code
                                (t ++ [get_contents_call path])%list
             end
    | file path decoded :: rest =>
        if should_process_path path
        then match decoded with
             | inr file_data =>
                 while_contents rest (code ++ segment path file_data) t
             | inl text =>
                 while_contents rest code
                   (t ++ [print_call (warning path text)])%list
             end
        else while_contents rest code t
    end.
Proof.
  destruct contents as [|[path decoded|path listing] rest];
    simp while_contents; [reflexivity| |].
  - destruct (should_process_path path); simpl; [|reflexivity].
    destruct decoded; reflexivity.
  - destruct (dir_is_forbidden path); simpl; [reflexivity|].
    destruct listing; reflexivity.
Qed.

(** Induction along the rounds of the loop. *)
Lemma queue_ind (P : list ContentFile -> Prop) :
  P [] ->
  (forall p d rest, P rest -> P (file p d :: rest)) ->
  (forall p e rest, P rest -> P (dir p (inl e) :: rest)) ->
  (forall p children rest,
      P rest -> P (rest ++ children)%list -> P (dir p (inr children) :: rest)) ->
  forall q, P q.
Proof.
  intros Hnil Hfile Herr Hdir q.
  remember (weights q) as n eqn:En. revert q En.
  induction n as [n IH] using lt_wf_ind. intros q En.
  destruct q as [|[p d|p [e|cs]] rest]; [exact Hnil| | |].
  - apply Hfile. apply (IH (weights rest)); [|reflexivity].
    subst n. unfold weights. simpl. lia.
  - apply Herr. apply (IH (weights rest)); [|reflexivity].
    subst n. unfold weights. simpl. lia.
  - apply Hdir.
    + apply (IH (weights rest)); [|reflexivity].
      subst n. unfold weights. simpl. lia.
    + apply (IH (weights (rest ++ cs))); [|reflexivity].
      subst n. unfold weights. rewrite map_app, list_sum_app. simpl. lia.
Qed.

(** The loop only adds to the trace, and what it adds and returns does not
    depend on the trace it starts from. *)
Lemma while_contents_frame (q : list ContentFile) :
  forall code t,
    while_contents q code t
    = (fst (while_contents q code []),
       (t ++ snd (while_contents q code []))%list).
Proof.
  induction q as [|p d rest IH|p e rest IH|p cs rest IH1 IH2] using queue_ind;
    intros code t.
  - rewrite !while_contents_round. simpl. now rewrite app_nil_r.
  - rewrite (while_contents_round _ code t), (while_contents_round _ code []).
    destruct (should_process_path p); [|apply IH].
    destruct d as [text|data]; [|apply IH].
    rewrite (IH code (t ++ _)%list), (IH code ([] ++ _)%list). simpl.
    now rewrite <- app_assoc.
  - rewrite (while_contents_round _ code t), (while_contents_round _ code []).
    destruct (dir_is_forbidden p); [apply IH | reflexivity].
  - rewrite (while_contents_round _ code t), (while_contents_round _ code []).
    destruct (dir_is_forbidden p); [apply IH1|].
    rewrite (IH2 code (t ++ _)%list), (IH2 code ([] ++ _)%list). simpl.
    now rewrite <- app_assoc.
Qed.

Lemma while_contents_result (q : list ContentFile) (code : string)
    (t1 t2 : trace) :
  fst (while_contents q code t1) = fst (while_contents q code t2).
Proof.
  rewrite (while_contents_frame q code t1), (while_contents_frame q code t2).
  reflexivity.
Qed.

Lemma while_contents_trace (q : list ContentFile) (code : string) (t : trace) :
  exists added, snd (while_contents q code t) = (t ++ added)%list.
Proof. rewrite while_contents_frame. simpl. eauto. Qed.

(** The loop raises nothing but what a listing raised. *)
Lemma while_contents_raises (q : list ContentFile) :
  forall code t e,
    fst (while_contents q code t) = inl e -> exists e', e = Plain e'.
Proof.
  induction q as [|p d rest IH|p e0 rest IH|p cs rest IH1 IH2] using queue_ind;
    intros code t e; rewrite while_contents_round.
  - discriminate.
  - destruct (should_process_path p); [destruct d|]; apply IH.
  - destruct (dir_is_forbidden p); [apply IH|].
    simpl. intros H. injection H as <-. eauto.
  - destruct (dir_is_forbidden p); [apply IH1 | apply IH2].
Qed.

(** The loop comes to its end exactly when every directory it opens can be
    listed. *)
Lemma while_contents_completes (q : list ContentFile) :
  forall code t,
    (exists text, fst (while_contents q code t) = inr text)
    <-> forallb listable q = true.
Proof.
  induction q as [|p d rest IH|p e0 rest IH|p cs rest IH1 IH2] using queue_ind;
    intros code t; rewrite while_contents_round.
  - simpl. split; eauto.
  - simpl. destruct (should_process_path p); [destruct d|]; apply IH.
  - simpl. destruct (dir_is_forbidden p); simpl; [apply IH|].
    split; [intros [x H]; discriminate | discriminate].
  - cbn [forallb listable]. destruct (dir_is_forbidden p); simpl; [apply IH1|].
    rewrite IH2, forallb_app, andb_comm. reflexivity.
Qed.

Lemma segments_empty (l : list (string * string)) :
  String.eqb (segments l) "" = match l with [] => true | _ => false end.
Proof. destruct l as [|[p x] r]; reflexivity. Qed.

Lemma filter_none {A} (f : A -> bool) (l : list A) :
  forallb (fun x => negb (f x)) l = true -> filter f l = [].
Proof.
  induction l as [|x l IH]; simpl; [reflexivity|].
  intros H. apply andb_true_iff in H. destruct H as [Hx Hl].
  apply negb_true_iff in Hx. rewrite Hx. auto.
Qed.

(** With every opened directory listed and no accepted file below a
    directory left unopened, the loop adds one segment for each file of the
    queue that is accepted and decodes, and nothing else. *)
Lemma while_contents_segments (q : list ContentFile) :
  forall code t,
    forallb listable q = true ->
    forallb (fun f => negb (qualifies f)) (flat_map unopened_files q) = true ->
    exists l t',
      while_contents q code t = (inr (code ++ segments l), t')
      /\ Permutation (map decoded_as l)
                     (filter (fun f => qualifies f && decodes f) (all_files q)).
Proof.
  unfold all_files.
  induction q as [|p d rest IH|p e0 rest IH|p cs rest IH1 IH2] using queue_ind;
    intros code t Hl Hu; rewrite while_contents_round.
  - exists [], t. simpl. now rewrite append_nil_r.
  - cbn [flat_map files_of unopened_files app forallb listable] in *.
    cbn [filter]. unfold qualifies at 1, decodes at 1. cbn [fst snd].
    destruct (should_process_path p); cbn [andb].
    + destruct d as [text|data].
      * apply (IH code _ Hl Hu).
      * destruct (IH (code ++ segment p data) t Hl Hu) as [l [t' [E P]]].
        exists ((p, data) :: l), t'. split.
        -- rewrite E. cbn [segments]. now rewrite append_assoc.
        -- cbn [map]. unfold decoded_as at 1. cbn [fst snd].
           now apply perm_skip.
    + apply (IH code t Hl Hu).
  - cbn [flat_map files_of unopened_files app forallb listable] in *.
    destruct (dir_is_forbidden p); [|discriminate]. apply (IH code t Hl Hu).
  - cbn [flat_map files_of unopened_files forallb listable] in *.
    rewrite forallb_app in Hu. rewrite filter_app.
    apply andb_true_iff in Hu. destruct Hu as [Hu1 Hu2].
    destruct (dir_is_forbidden p); cbn [orb] in Hl.
    + replace (filter (fun f => qualifies f && decodes f)
                      (flat_map files_of cs)) with
        (@nil (string * (string + string))).
      * apply (IH1 code t Hl Hu2).
      * symmetry. apply filter_none.
        rewrite forallb_forall in Hu1 |- *. intros f Hf.
        specialize (Hu1 f Hf). apply negb_true_iff in Hu1. now rewrite Hu1.
    + apply andb_true_iff in Hl. destruct Hl as [Hl1 Hl2].
      destruct (IH2 code (t ++ [get_contents_call p])%list) as [l [t' [E P]]].
      * rewrite forallb_app. now rewrite Hl1, Hl2.
      * rewrite flat_map_app, forallb_app. now rewrite Hu1, Hu2.
      * exists l, t'. split; [exact E|].
        rewrite flat_map_app, filter_app in P.
        eapply Permutation_trans; [exact P | apply Permutation_app_comm].
Qed.

(** A queue without accepted files leaves the text as it is. *)
Lemma while_contents_nothing (q : list ContentFile) :
  forall code t,
    forallb listable q = true ->
    forallb (fun f => negb (qualifies f)) (all_files q) = true ->
    exists t', while_contents q code t = (inr code, t').
Proof.
  unfold all_files.
  induction q as [|p d rest IH|p e0 rest IH|p cs rest IH1 IH2] using queue_ind;
    intros code t Hl Hn; rewrite while_contents_round.
  - eauto.
  - cbn [flat_map files_of app forallb listable] in *.
    apply andb_true_iff in Hn. destruct Hn as [Hn1 Hn2].
    unfold qualifies in Hn1. cbn [fst] in Hn1.
    apply negb_true_iff in Hn1. rewrite Hn1. apply (IH code t Hl Hn2).
  - cbn [flat_map files_of app forallb listable] in *.
    destruct (dir_is_forbidden p); [|discriminate]. apply (IH code t Hl Hn).
  - cbn [flat_map files_of forallb listable] in *.
    rewrite forallb_app in Hn. apply andb_true_iff in Hn.
    destruct Hn as [Hn1 Hn2].
    destruct (dir_is_forbidden p); cbn [orb] in Hl.
    + apply (IH1 code t Hl Hn2).
    + apply andb_true_iff in Hl. destruct Hl as [Hl1 Hl2]. apply IH2.
      * rewrite forallb_app. now rewrite Hl1, Hl2.
      * rewrite flat_map_app, forallb_app. now rewrite Hn1, Hn2.
Qed.

(** A file that fails to decode changes neither the text nor the outcome
    of the loop, wherever it stands in the queue. *)
Lemma while_contents_skips (q1 : list ContentFile) :
  forall q2 p text code t,
    fst (while_contents (q1 ++ file p (inl text) :: q2) code t)
    = fst (while_contents (q1 ++ q2) code t).
Proof.
  induction q1 as [|c q1 IH]; intros q2 p text code t.
  - cbn [app]. rewrite (while_contents_round (file _ _ :: _)).
    destruct (should_process_path p); [|reflexivity].
    apply while_contents_result.
  - cbn [app]. rewrite (while_contents_round (c :: q1 ++ _ :: _)),
      (while_contents_round (c :: q1 ++ q2)).
    destruct c as [p1 d1|p1 [e1|cs]].
    + destruct (should_process_path p1); [destruct d1|]; apply IH.
    + destruct (dir_is_forbidden p1); [apply IH | reflexivity].
    + destruct (dir_is_forbidden p1); [apply IH|].
      rewrite <- !app_assoc. cbn [app]. apply IH.
Qed.

(** When the loop comes to its end, it has printed the warning of every
    accepted file of the queue that failed to decode. *)
Lemma while_contents_warns (q1 : list ContentFile) :
  forall q2 p text code t result,
    should_process_path p = true ->
    fst (while_contents (q1 ++ file p (inl text) :: q2) code t) = inr result ->
    In (print_call (warning p text))
       (snd (while_contents (q1 ++ file p (inl text) :: q2) code t)).
Proof.
  induction q1 as [|c q1 IH]; intros q2 p text code t result Hp.
  - cbn [app]. rewrite (while_contents_round (file _ _ :: _)), Hp.
    intros _. destruct (while_contents_trace q2 code
                          (t ++ [print_call (warning p text)])%list) as [d ->].
    apply in_or_app. left. apply in_or_app. right. now left.
  - cbn [app]. rewrite (while_contents_round (c :: q1 ++ _ :: _)).
    destruct c as [p1 d1|p1 [e1|cs]].
    + destruct (should_process_path p1); [destruct d1|]; now apply IH.
    + destruct (dir_is_forbidden p1); [now apply IH | discriminate].
    + destruct (dir_is_forbidden p1); [now apply IH|].
      rewrite <- !app_assoc. cbn [app]. now apply IH.
Qed.

(** ** Pruning and the filter *)

Lemma first_part_prefix (sep : ascii) (s p : string) (ps : list string) :
  Str.split sep s = p :: ps -> prefix p s = true.
Proof.
  revert p ps. induction s as [|c s IH]; intros p ps; simpl.
  - intros H. injection H as <- _. reflexivity.
  - destruct (Ascii.eqb c sep).
    + intros H. injection H as <- _. reflexivity.
    + destruct (Str.split sep s) as [|p0 ps0] eqn:E.
      * intros H. injection H as <- _. simpl.
        destruct (ascii_dec c c); [now destruct s | contradiction].
      * intros H. injection H as <- _. simpl.
        destruct (ascii_dec c c); [|contradiction]. now apply (IH p0 ps0).
Qed.

(** A part of a path is a piece of the path. *)
Lemma part_is_contained (sep : ascii) (s x : string) :
  In x (Str.split sep s) -> Str.contains x s = true.
Proof.
  induction s as [|c s IH]; intros H.
  - simpl in H. destruct H as [<-|[]]. reflexivity.
  - cbn [Str.contains]. simpl in H. destruct (Ascii.eqb c sep).
    + destruct H as [<-|H]; [reflexivity|].
      rewrite (IH H). apply orb_true_r.
    + destruct (Str.split sep s) as [|p ps] eqn:E.
      * destruct H as [<-|[]]. simpl.
        destruct (ascii_dec c c); [now destruct s | contradiction].
      * destruct H as [<-|H].
        -- replace (prefix (String c p) (String c s)) with true; [reflexivity|].
           simpl. destruct (ascii_dec c c); [|contradiction].
           symmetry. now apply (first_part_prefix sep s p ps).
        -- rewrite IH; [apply orb_true_r | now right].
Qed.

(** X7. The loop leaves unopened every directory that has a deny-listed
    name among the parts of its path. *)
Lemma forbidden_part_is_unopened (path : string) :
  has_forbidden_part path = true -> dir_is_forbidden path = true.
Proof.
  intros H. apply has_forbidden_part_true in H. destruct H as [f [Hf Hin]].
  unfold dir_is_forbidden. apply existsb_exists. exists f.
  split; [assumption|]. now apply (part_is_contained "/").
Qed.

(** X6. Below a directory that has a deny-listed name among the parts of
    its path no path is accepted by the filter, so leaving it unopened
    loses no segment. *)
Lemma below_forbidden_part_refused (directory name : string) :
  has_forbidden_part directory = true ->
  should_process_path (directory ++ "/" ++ name) = false.
Proof.
  intros H. apply has_forbidden_part_true in H. destruct H as [f [Hf Hin]].
  unfold should_process_path.
  replace (has_forbidden_part (directory ++ "/" ++ name)) with true;
    [reflexivity|].
  symmetry. apply has_forbidden_part_true. exists f. split; [assumption|].
  change (directory ++ "/" ++ name) with (directory ++ String "/" name).
  rewrite lower_app. cbn [Str.lower].
  change (Str.lower_char "/") with "/"%char.
  rewrite split_app. apply in_or_app. now left.
Qed.

(** The test of the loop is wider than the one of the filter. *)
Example dir_is_forbidden_environment :
  dir_is_forbidden "environment" = true
  /\ has_forbidden_part "environment" = false
  /\ should_process_path "environment/main.py" = true.
Proof. repeat split. Qed.

(** ** The fetcher *)

Lemma fetch_github_code_run (env : Env) (url token : string) (t : trace)
    (owner repo : string) (repository : Repository)
    (contents : list ContentFile) :
  owner_and_repo url = inr (owner, repo) ->
  get_repo env token (owner ++ "/" ++ repo) = inr repository ->
  root repository = inr contents ->
  fetch_github_code env url token t
  = match while_contents contents ""
            (t ++ [get_repo_call (owner ++ "/" ++ repo);
                   get_contents_call ""])%list with
    | (inr code, t') =>
        if String.eqb code "" then
          (inl (HTTPException 404
                  "No supported files found in the repository."), t')
        else (inr code, t')
    | (inl e, t') => on_GithubException e t'
    end.
Proof.
  intros Hu Hr Hc.
  unfold fetch_github_code, fetch_body, bind, lift, try_except, emit, ret,
    raise.
  rewrite Hu, Hr, Hc. rewrite <- app_assoc. cbn [app].
  destruct (while_contents contents "" _) as [[e|code] t']; [reflexivity|].
  destruct (String.eqb code ""); reflexivity.
Qed.

(** C1, amended. In a repository where every directory that the loop opens
    can be listed and no accepted file lies below a directory that the loop
    leaves unopened, the text returned by fetch_github_code is made of one
    segment '// File: <path>' for each file that should_process_path accepts
    and that decodes, and of nothing else: as many segments as there are
    such files, all the accepted files when they all decode, and none for a
    refused path. With no such file the fetch reports 404. *)
Theorem fetch_one_segment_per_accepted_file (env : Env) (url token : string)
    (t : trace) (owner repo : string) (repository : Repository)
    (contents : list ContentFile) :
  owner_and_repo url = inr (owner, repo) ->
  get_repo env token (owner ++ "/" ++ repo) = inr repository ->
  root repository = inr contents ->
  forallb listable contents = true ->
  forallb (fun f => negb (qualifies f)) (flat_map unopened_files contents)
  = true ->
  exists l t',
    Permutation (map decoded_as l)
      (filter (fun f => qualifies f && decodes f) (all_files contents))
    /\ (forallb (fun f => implb (qualifies f) (decodes f))
                (all_files contents) = true ->
        Permutation (map decoded_as l)
                    (filter qualifies (all_files contents))
        /\ List.length l
           = List.length (filter qualifies (all_files contents)))
    /\ fetch_github_code env url token t
       = (match l with
          | [] => inl (HTTPException 404
                         "No supported files found in the repository.")
          | _ => inr (segments l)
          end, t').
Proof.
  intros Hu Hr Hc Hl Hn.
  rewrite (fetch_github_code_run env url token t owner repo repository
             contents Hu Hr Hc).
  destruct (while_contents_segments contents ""
              (t ++ [get_repo_call (owner ++ "/" ++ repo);
                     get_contents_call ""])%list Hl Hn)
    as [l [t' [E P]]].
  exists l, t'. split; [exact P|]. split.
  - intros Hd.
    assert (F : filter (fun f => qualifies f && decodes f) (all_files contents)
                = filter qualifies (all_files contents)).
    { apply filter_ext_in. intros f Hf.
      rewrite forallb_forall in Hd. specialize (Hd f Hf).
      destruct (qualifies f), (decodes f); try reflexivity; discriminate. }
    rewrite F in P. split; [exact P|].
    rewrite <- (Permutation_length P). now rewrite length_map.
  - rewrite E. cbn [append]. rewrite segments_empty.
    destruct l; reflexivity.
Qed.

Lemma fetch_one_segment_per_accepted_file_witness :
  exists l t',
    Permutation (map decoded_as l)
                [("main.c", inr "C"); ("src/a.py", inr "A");
                 ("src/B.JS", inr "B")]
    /\ fetch_github_code
         (Sample.env (Scenario.repository Scenario.sources) [])
         Scenario.url "token" []
       = (inr (segments l), t').
Proof.
  destruct (fetch_one_segment_per_accepted_file
              (Sample.env (Scenario.repository Scenario.sources) [])
              Scenario.url "token" [] "owner" "repo"
              {| root := inr Scenario.sources |} Scenario.sources
              eq_refl eq_refl eq_refl eq_refl eq_refl)
    as [l [t' [_ [P E]]]].
  destruct (P eq_refl) as [P' L].
  exists l, t'. split.
  - eapply Permutation_trans; [exact P'|].
    vm_compute. apply Permutation_sym.
    apply (Permutation_cons_app [_; _] [] _). apply Permutation_refl.
  - rewrite E. destruct l; [discriminate L | reflexivity].
Defined.

(** C1, as stated, fails: of the three accepted files of this repository
    two have no marker in the text, the one that does not decode and the
    one in the directory environment, whose name contains env. *)
Lemma fetch_one_segment_per_accepted_file_counterexample :
  let files := all_files Scenario.mixed in
  let result := fetch_github_code
                  (Sample.env (Scenario.repository Scenario.mixed) [])
                  Scenario.url "token" [] in
  map fst (filter qualifies files)
  = ["bad.py"; "environment/main.py"; "ok.py"]
  /\ fst result = inr (segment "ok.py" "pass")
  /\ occurrences "// File: " (segment "ok.py" "pass") = 1
  /\ Str.contains "// File: bad.py" (segment "ok.py" "pass") = false
  /\ Str.contains "// File: environment/main.py" (segment "ok.py" "pass")
     = false.
Proof. vm_compute. repeat split. Qed.

(** The [try] block, as a plain case analysis. *)
Lemma fetch_body_run (env : Env) (token full_name : string) (t : trace) :
  fetch_body env token full_name t
  = match get_repo env token full_name with
    | inl e => (inl (Plain e), (t ++ [get_repo_call full_name])%list)
    | inr repository =>
        match root repository with
        | inl e =>
            (inl (Plain e),
             (t ++ [get_repo_call full_name; get_contents_call ""])%list)
        | inr contents =>
            match while_contents contents ""
                    (t ++ [get_repo_call full_name;
                           get_contents_call ""])%list with
            | (inr code, t') =>
                if String.eqb code "" then
                  (inl (HTTPException 404
                          "No supported files found in the repository."), t')
                else (inr code, t')
            | (inl e, t') => (inl e, t')
            end
        end
    end.
Proof.
  unfold fetch_body, bind, lift, emit, ret, raise.
  destruct (get_repo env token full_name) as [e|repository]; [reflexivity|].
  rewrite <- app_assoc. cbn [app].
  destruct (root repository) as [e|contents]; [reflexivity|].
  destruct (while_contents contents "" _) as [[e|code] t']; [reflexivity|].
  destruct (String.eqb code ""); reflexivity.
Qed.

Lemma fetch_github_code_by_body (env : Env) (url token : string) (t : trace) :
  fetch_github_code env url token t
  = match owner_and_repo url with
    | inl e => (inl e, t)
    | inr (owner, repo) =>
        match fetch_body env token (owner ++ "/" ++ repo) t with
        | (inr code, t') => (inr code, t')
        | (inl e, t') => on_GithubException e t'
        end
    end.
Proof.
  unfold fetch_github_code, bind, lift, try_except.
  destruct (owner_and_repo url) as [e|[owner repo]]; reflexivity.
Qed.

(** The [try] block raises what the hosting service raised, or the 404 of
    the empty text. *)
Lemma fetch_body_raises (env : Env) (token full_name : string) (t t' : trace)
    (e : exn) :
  fetch_body env token full_name t = (inl e, t') ->
  (exists e', e = Plain e')
  \/ e = HTTPException 404 "No supported files found in the repository.".
Proof.
  rewrite fetch_body_run.
  destruct (get_repo env token full_name) as [e0|repository].
  { intros H. injection H as <- _. eauto. }
  destruct (root repository) as [e0|contents].
  { intros H. injection H as <- _. eauto. }
  destruct (while_contents contents "" _) as [[e0|code] t0] eqn:W.
  - intros H. injection H as <- _. left.
    eapply (while_contents_raises contents ""). rewrite W. reflexivity.
  - destruct (String.eqb code ""); intros H; [|discriminate].
    injection H as <- _. now right.
Qed.

Lemma owner_and_repo_raises (url : string) (e : exn) :
  owner_and_repo url = inl e ->
  e = Plain (Exception "list index out of range").
Proof.
  unfold owner_and_repo.
  destruct (index_from_end (Str.split "/" url) 2) as [e2|owner] eqn:E2.
  - intros H. injection H as <-. revert E2. unfold index_from_end.
    destruct (if (2 <=? _)%nat then _ else _); congruence.
  - destruct (index_from_end (Str.split "/" url) 1) as [e1|repo] eqn:E1;
      [|discriminate].
    intros H. injection H as <-. revert E1. unfold index_from_end.
    destruct (if (1 <=? _)%nat then _ else _); congruence.
Qed.

(** What fetch_github_code can raise. *)
Lemma fetch_github_code_raises (env : Env) (url token : string)
    (t t' : trace) (e : exn) :
  fetch_github_code env url token t = (inl e, t') ->
  (exists text, e = Plain (Exception text))
  \/ e = HTTPException 401
           "GitHub authentication failed. Please check your access token."
  \/ e = HTTPException 404 "GitHub repository not found. Please check the URL."
  \/ e = HTTPException 404 "No supported files found in the repository."
  \/ (exists text, e = HTTPException 500 ("GitHub API error: " ++ text)).
Proof.
  rewrite fetch_github_code_by_body.
  destruct (owner_and_repo url) as [e0|[owner repo]] eqn:U.
  { intros H. injection H as <- _. left.
    rewrite (owner_and_repo_raises _ _ U). eauto. }
  destruct (fetch_body env token _ t) as [[e0|code] t0] eqn:B; [|discriminate].
  destruct (fetch_body_raises _ _ _ _ _ _ B) as [[e1 ->]| ->].
  - destruct e1 as [status text|text]; cbn [on_GithubException].
    + destruct (status =? 401)%Z; [|destruct (status =? 404)%Z];
        unfold raise; intros H; injection H as <- _.
      * right. now left.
      * right. right. now left.
      * right. right. right. right. now exists text.
    + unfold raise. intros H. injection H as <- _. left. now exists text.
  - cbn [on_GithubException]. unfold raise. intros H. injection H as <- _.
    auto.
Qed.

(** C4. A repository whose traversal comes to its end with no file
    accepted by should_process_path makes fetch_github_code raise the 404
    of the empty result; and whatever the repository, fetch_github_code
    never returns an empty text. *)
Theorem fetch_nothing_is_not_found :
  (forall (env : Env) (url token : string) (t : trace) (owner repo : string)
          (repository : Repository) (contents : list ContentFile),
      owner_and_repo url = inr (owner, repo) ->
      get_repo env token (owner ++ "/" ++ repo) = inr repository ->
      root repository = inr contents ->
      forallb listable contents = true ->
      forallb (fun f => negb (qualifies f)) (all_files contents) = true ->
      exists t',
        fetch_github_code env url token t
        = (inl (HTTPException 404
                  "No supported files found in the repository."), t'))
  /\ (forall (env : Env) (url token : string) (t t' : trace) (text : string),
      fetch_github_code env url token t = (inr text, t') -> text <> "").
Proof.
  split.
  - intros env url token t owner repo repository contents Hu Hr Hc Hl Hn.
    rewrite (fetch_github_code_run env url token t owner repo repository
               contents Hu Hr Hc).
    destruct (while_contents_nothing contents ""
                (t ++ [get_repo_call (owner ++ "/" ++ repo);
                       get_contents_call ""])%list Hl Hn) as [t' ->].
    now exists t'.
  - intros env url token t t' text. rewrite fetch_github_code_by_body.
    destruct (owner_and_repo url) as [e|[owner repo]]; [discriminate|].
    rewrite fetch_body_run.
    destruct (get_repo env token _) as [e|repository].
    { destruct e as [status x|x]; cbn [on_GithubException]; [|discriminate].
      destruct (status =? 401)%Z; [|destruct (status =? 404)%Z]; discriminate. }
    destruct (root repository) as [e|contents].
    { destruct e as [status x|x]; cbn [on_GithubException]; [|discriminate].
      destruct (status =? 401)%Z; [|destruct (status =? 404)%Z]; discriminate. }
    destruct (while_contents contents "" _) as [[e|code] t0].
    { destruct e as [[status x|x]|s d]; cbn [on_GithubException];
        try discriminate.
      destruct (status =? 401)%Z; [|destruct (status =? 404)%Z]; discriminate. }
    destruct (String.eqb code "") eqn:E; [discriminate|].
    intros H. injection H as <- _. intros ->. discriminate E.
Qed.

Lemma fetch_nothing_is_not_found_witness :
  exists t',
    fetch_github_code (Sample.env (Scenario.repository Scenario.documents) [])
                      Scenario.url "token" []
    = (inl (HTTPException 404 "No supported files found in the repository."),
       t').
Proof.
  apply (proj1 fetch_nothing_is_not_found
           (Sample.env (Scenario.repository Scenario.documents) [])
           Scenario.url "token" [] "owner" "repo"
           {| root := inr Scenario.documents |} Scenario.documents);
    reflexivity.
Defined.

(** ** The handler *)

Lemma getitem_raises (v : pyval) (key : string) (e : exn) :
  getitem v key = inl e -> exists text, e = Plain (Exception text).
Proof.
  destruct v; simpl; try (intros H; injection H as <-; eauto).
  destruct (lookup key items); [discriminate|].
  intros H. injection H as <-. eauto.
Qed.

(** The handler, as a plain case analysis over what each call returns. *)
Lemma analyse_github_code_run (env : Env) (request : AnalysisRequest)
    (t : trace) :
  analyse_github_code env request t
  = let requirement := clean_input (curriculum request) in
    match fetch_github_code env (clean_input (github_url request))
            (GITHUB_ACCESS_TOKEN env) t with
    | (inl e, t1) => on_exception e t1
    | (inr code_data, t1) =>
        let p1 := analyze_prompt code_data requirement in
        let t2 := (t1 ++ [chain_run_call p1])%list in
        match chain_run env (sent t1) p1 with
        | inl text => (inl (unexpected text), t2)
        | inr a1 =>
            match json_loads env a1 with
            | inl text => (inl (unexpected text), t2)
            | inr result =>
                match getitem result "alignmentSummary" with
                | inl e => on_exception e t2
                | inr summary =>
                    let p2 := questions_prompt (format_value env summary)
                                requirement
                                (Str.of_int (question_count request)) in
                    let t3 := (t2 ++ [chain_run_call p2])%list in
                    match chain_run env (sent t2) p2 with
                    | inl text => (inl (unexpected text), t3)
                    | inr a2 =>
                        match json_loads env a2 with
                        | inl text => (inl (unexpected text), t3)
                        | inr questions =>
                            match getitem result "alignmentScore" with
                            | inl e => on_exception e t3
                            | inr score =>
                                match new_AnalysisResponse env score summary
                                        questions with
                                | inl text => (inl (unexpected text), t3)
                                | inr response => (inr response, t3)
                                end
                            end
                        end
                    end
                end
            end
        end
    end.
Proof.
  unfold analyse_github_code, analyze_code, generate_questions, run_chain,
    loads, try_except, bind, lift, unexpected.
  cbv zeta.
  destruct (fetch_github_code env _ _ t) as [[e|code_data] t1]; [reflexivity|].
  destruct (chain_run env (sent t1) _) as [x|a1]; [reflexivity|].
  destruct (json_loads env a1) as [x|result]; [reflexivity|].
  destruct (getitem result "alignmentSummary") as [e|summary]; [reflexivity|].
  destruct (chain_run env _ _) as [x|a2]; [reflexivity|].
  destruct (json_loads env a2) as [x|questions]; [reflexivity|].
  destruct (getitem result "alignmentScore") as [e|score]; [reflexivity|].
  destruct (new_AnalysisResponse env score summary questions); reflexivity.
Qed.

Lemma on_GithubException_fails (e : exn) (t t' : trace) (code : string) :
  on_GithubException e t <> (inr code, t').
Proof.
  destruct e as [[status text|text]|s d]; cbn [on_GithubException];
    try discriminate.
  destruct (status =? 401)%Z; [|destruct (status =? 404)%Z]; discriminate.
Qed.

Lemma on_exception_fails (e : exn) (t t' : trace) (r : AnalysisResponse) :
  on_exception e t <> (inr r, t').
Proof. destruct e; discriminate. Qed.

(** A fetch that returns has found the repository and listed every
    directory it opened. *)
Lemma fetch_github_code_returns (env : Env) (url token : string)
    (t t' : trace) (code : string) :
  fetch_github_code env url token t = (inr code, t') ->
  exists owner repo repository contents,
    owner_and_repo url = inr (owner, repo)
    /\ get_repo env token (owner ++ "/" ++ repo) = inr repository
    /\ root repository = inr contents
    /\ forallb listable contents = true.
Proof.
  rewrite fetch_github_code_by_body.
  destruct (owner_and_repo url) as [e|[owner repo]]; [discriminate|].
  rewrite fetch_body_run.
  destruct (get_repo env token _) as [e|repository] eqn:R.
  { intros H. exfalso. exact (on_GithubException_fails _ _ _ _ H). }
  destruct (root repository) as [e|contents] eqn:C.
  { intros H. exfalso. exact (on_GithubException_fails _ _ _ _ H). }
  destruct (while_contents contents "" _) as [[e|code0] t0] eqn:W.
  { intros H. exfalso. exact (on_GithubException_fails _ _ _ _ H). }
  intros _. exists owner, repo, repository, contents.
  repeat split; try assumption.
  eapply (while_contents_completes contents ""). exists code0.
  rewrite W. reflexivity.
Qed.

(** C8. A file accepted by the filter that fails to decode makes the loop
    print a warning and go on with the rest of the queue, the text
    unchanged; wherever the file stands in the queue, the outcome of the
    loop is the one of the queue without it, and a loop that comes to its
    end has printed the warning. Nothing else is swallowed: a request that
    succeeds has found the repository, listed every directory it opened,
    got both answers of the model, parsed both, found both keys and built
    the response. *)
Theorem decode_failure_is_skipped :
  (forall (p text : string) (q : list ContentFile) (code : string) (t : trace),
      should_process_path p = true ->
      while_contents (file p (inl text) :: q) code t
      = while_contents q code (t ++ [print_call (warning p text)])%list)
  /\ (forall (q1 q2 : list ContentFile) (p text code : string) (t : trace),
      fst (while_contents (q1 ++ file p (inl text) :: q2) code t)
      = fst (while_contents (q1 ++ q2) code t))
  /\ (forall (q1 q2 : list ContentFile) (p text code : string) (t : trace)
             (result : string),
      should_process_path p = true ->
      fst (while_contents (q1 ++ file p (inl text) :: q2) code t)
      = inr result ->
      In (print_call (warning p text))
         (snd (while_contents (q1 ++ file p (inl text) :: q2) code t)))
  /\ (forall (env : Env) (request : AnalysisRequest) (t t' : trace)
             (body : AnalysisResponse),
      post_analyse_github env request t = (Success body, t') ->
      exists owner repo repository contents code t1 a1 result summary a2
             questions score,
        owner_and_repo (clean_input (github_url request)) = inr (owner, repo)
        /\ get_repo env (GITHUB_ACCESS_TOKEN env) (owner ++ "/" ++ repo)
           = inr repository
        /\ root repository = inr contents
        /\ forallb listable contents = true
        /\ fetch_github_code env (clean_input (github_url request))
             (GITHUB_ACCESS_TOKEN env) t = (inr code, t1)
        /\ chain_run env (sent t1)
             (analyze_prompt code (clean_input (curriculum request)))
           = inr a1
        /\ json_loads env a1 = inr result
        /\ getitem result "alignmentSummary" = inr summary
        /\ chain_run env
             (sent (t1 ++ [chain_run_call
                             (analyze_prompt code
                                (clean_input (curriculum request)))])%list)
             (questions_prompt (format_value env summary)
                (clean_input (curriculum request))
                (Str.of_int (question_count request)))
           = inr a2
        /\ json_loads env a2 = inr questions
        /\ getitem result "alignmentScore" = inr score
        /\ new_AnalysisResponse env score summary questions = inr body).
Proof.
  split; [|split; [|split]].
  - intros p text q code t Hp. rewrite while_contents_round, Hp. reflexivity.
  - intros. apply while_contents_skips.
  - intros q1 q2 p text code t result. apply while_contents_warns.
  - intros env request t t' body. unfold post_analyse_github.
    rewrite analyse_github_code_run. cbv zeta.
    destruct (fetch_github_code env _ _ t) as [[e|code] t1] eqn:F.
    { destruct e; discriminate. }
    destruct (fetch_github_code_returns _ _ _ _ _ _ F)
      as [owner [repo [repository [contents [Hu [Hr [Hc Hl]]]]]]].
    destruct (chain_run env (sent t1) _) as [x|a1] eqn:A1; [discriminate|].
    destruct (json_loads env a1) as [x|result] eqn:J1; [discriminate|].
    destruct (getitem result "alignmentSummary") as [e|summary] eqn:G1.
    { destruct e; discriminate. }
    destruct (chain_run env _ (questions_prompt _ _ _)) as [x|a2] eqn:A2;
      [discriminate|].
    destruct (json_loads env a2) as [x|questions] eqn:J2; [discriminate|].
    destruct (getitem result "alignmentScore") as [e|score] eqn:G2.
    { destruct e; discriminate. }
    destruct (new_AnalysisResponse env score summary questions) as [x|r] eqn:N;
      [discriminate|].
    intros H. injection H as -> _.
    exists owner, repo, repository, contents, code, t1, a1, result, summary,
      a2, questions, score.
    repeat split; assumption.
Qed.

Lemma decode_failure_is_skipped_witness :
  while_contents Scenario.partly "" []
  = while_contents [file "ok.py" (inr "pass")] ""
      [print_call (warning "bad.py"
         "'utf-8' codec can't decode byte 0xff in position 0: invalid start byte")]
  /\ In (print_call (warning "bad.py"
           "'utf-8' codec can't decode byte 0xff in position 0: invalid start byte"))
        (snd (while_contents Scenario.partly "" []))
  /\ exists contents,
       root {| root := inr Scenario.partly |} = inr contents
       /\ forallb listable contents = true.
Proof.
  split; [|split].
  - apply (proj1 decode_failure_is_skipped "bad.py"). reflexivity.
  - apply (proj1 (proj2 (proj2 decode_failure_is_skipped)) []
             [file "ok.py" (inr "pass")] "bad.py" _ "" []
             (segment "ok.py" "pass")); reflexivity.
  - destruct (proj2 (proj2 (proj2 decode_failure_is_skipped))
                (Sample.env (Scenario.repository Scenario.partly)
                            Scenario.answers)
                (Scenario.request 5) []
                (snd (post_analyse_github
                        (Sample.env (Scenario.repository Scenario.partly)
                                    Scenario.answers)
                        (Scenario.request 5) []))
                {| alignment_score := 80;
                   alignment_summary := "close";
                   questions_list :=
                     [[("question", "q1"); ("lookingFor", "l1")];
                      [("question", "q2"); ("lookingFor", "l2")]] |}
                eq_refl)
      as [owner [repo [repository [contents H]]]].
    destruct H as [code [t1 [a1 [result [summary [a2 [questions [score H]]]]]]]].
    destruct H as [Hu [Hr [Hc [Hl _]]]].
    exists contents. split; [|exact Hl].
    vm_compute in Hr. injection Hr as <-. exact Hc.
Defined.

(** C5. The handler answers a failure with 401 when the hosting service
    raised a GithubException of status 401, with 404 when it raised one of
    status 404 or when the text came out empty, and with 500 for a
    GithubException of another status and for any other exception; each
    failure carries a detail, and no exception leaves the handler
    otherwise. *)
Theorem failure_statuses :
  (forall (env : Env) (request : AnalysisRequest) (t : trace),
      match fst (post_analyse_github env request t) with
      | Success _ => True
      | Crash _ => False
      | Failure status detail =>
          (status = 401%Z
           /\ detail
              = "GitHub authentication failed. Please check your access token.")
          \/ (status = 404%Z
              /\ (detail = "GitHub repository not found. Please check the URL."
                  \/ detail = "No supported files found in the repository."))
          \/ (status = 500%Z
              /\ exists text,
                   detail = "GitHub API error: " ++ text
                   \/ detail = "An unexpected error occurred: " ++ text)
      end)
  /\ (forall (env : Env) (request : AnalysisRequest) (t t' : trace)
             (owner repo : string) (status : Z) (text : string),
      owner_and_repo (clean_input (github_url request)) = inr (owner, repo) ->
      fetch_body env (GITHUB_ACCESS_TOKEN env) (owner ++ "/" ++ repo) t
      = (inl (Plain (GithubException status text)), t') ->
      post_analyse_github env request t
      = (if (status =? 401)%Z then
           Failure 401
             "GitHub authentication failed. Please check your access token."
         else if (status =? 404)%Z then
           Failure 404 "GitHub repository not found. Please check the URL."
         else Failure 500 ("GitHub API error: " ++ text), t'))
  /\ (forall (env : Env) (request : AnalysisRequest) (t t' : trace)
             (owner repo : string) (repository : Repository)
             (contents : list ContentFile),
      owner_and_repo (clean_input (github_url request)) = inr (owner, repo) ->
      get_repo env (GITHUB_ACCESS_TOKEN env) (owner ++ "/" ++ repo)
      = inr repository ->
      root repository = inr contents ->
      while_contents contents ""
        (t ++ [get_repo_call (owner ++ "/" ++ repo);
               get_contents_call ""])%list = (inr "", t') ->
      post_analyse_github env request t
      = (Failure 404 "No supported files found in the repository.", t'))
  /\ (forall (env : Env) (request : AnalysisRequest) (t t' : trace)
             (owner repo text : string),
      owner_and_repo (clean_input (github_url request)) = inr (owner, repo) ->
      fetch_body env (GITHUB_ACCESS_TOKEN env) (owner ++ "/" ++ repo) t
      = (inl (Plain (Exception text)), t') ->
      post_analyse_github env request t
      = (Failure 500 ("An unexpected error occurred: " ++ text), t')).
Proof.
  split; [|split; [|split]].
  - intros env request t. unfold post_analyse_github.
    rewrite analyse_github_code_run. cbv zeta.
    assert (U : forall text : string,
               500%Z = 401%Z /\ "An unexpected error occurred: " ++ text
                     = "GitHub authentication failed. Please check your access token."
               \/ 500%Z = 404%Z
                  /\ ("An unexpected error occurred: " ++ text
                      = "GitHub repository not found. Please check the URL."
                      \/ "An unexpected error occurred: " ++ text
                         = "No supported files found in the repository.")
               \/ 500%Z = 500%Z
                  /\ exists x,
                       "An unexpected error occurred: " ++ text
                       = "GitHub API error: " ++ x
                       \/ "An unexpected error occurred: " ++ text
                          = "An unexpected error occurred: " ++ x).
    { intros text. right. right. split; [reflexivity|]. exists text.
      now right. }
    destruct (fetch_github_code env _ _ t) as [[e|code] t1] eqn:F.
    { destruct (fetch_github_code_raises _ _ _ _ _ _ F)
        as [[x ->]|[->|[->|[->|[x ->]]]]]; cbn.
      - apply U.
      - left. now split.
      - right. left. split; [reflexivity | now left].
      - right. left. split; [reflexivity | now right].
      - right. right. split; [reflexivity|]. exists x. now left. }
    destruct (chain_run env (sent t1) _) as [x|a1]; [apply U|].
    destruct (json_loads env a1) as [x|result]; [apply U|].
    destruct (getitem result "alignmentSummary") as [e|summary] eqn:G1.
    { destruct (getitem_raises _ _ _ G1) as [x ->]. apply U. }
    destruct (chain_run env _ (questions_prompt _ _ _)) as [x|a2]; [apply U|].
    destruct (json_loads env a2) as [x|questions]; [apply U|].
    destruct (getitem result "alignmentScore") as [e|score] eqn:G2.
    { destruct (getitem_raises _ _ _ G2) as [x ->]. apply U. }
    destruct (new_AnalysisResponse env score summary questions);
      [apply U | exact I].
  - intros env request t t' owner repo status text Hu Hb.
    unfold post_analyse_github. rewrite analyse_github_code_run. cbv zeta.
    rewrite fetch_github_code_by_body, Hu, Hb. cbn [on_GithubException].
    destruct (status =? 401)%Z; [reflexivity|].
    destruct (status =? 404)%Z; reflexivity.
  - intros env request t t' owner repo repository contents Hu Hr Hc Hw.
    unfold post_analyse_github. rewrite analyse_github_code_run. cbv zeta.
    rewrite (fetch_github_code_run env _ _ t owner repo repository contents
               Hu Hr Hc), Hw.
    reflexivity.
  - intros env request t t' owner repo text Hu Hb.
    unfold post_analyse_github. rewrite analyse_github_code_run. cbv zeta.
    rewrite fetch_github_code_by_body, Hu, Hb. reflexivity.
Qed.

Lemma failure_statuses_witness :
  post_analyse_github
    (Sample.env (inl (GithubException 401 "401 Bad credentials")) [])
    (Scenario.request 5) []
  = (Failure 401
       "GitHub authentication failed. Please check your access token.",
     [get_repo_call "owner/repo"])
  /\ post_analyse_github
       (Sample.env (inl (GithubException 404 "404 Not Found")) [])
       (Scenario.request 5) []
     = (Failure 404 "GitHub repository not found. Please check the URL.",
        [get_repo_call "owner/repo"])
  /\ post_analyse_github
       (Sample.env (Scenario.repository (Scenario.failing 403)) [])
       (Scenario.request 5) []
     = (Failure 500 "GitHub API error: upstream said no",
        [get_repo_call "owner/repo"; get_contents_call "";
         get_contents_call "lib"])
  /\ post_analyse_github
       (Sample.env (Scenario.repository Scenario.documents) [])
       (Scenario.request 5) []
     = (Failure 404 "No supported files found in the repository.",
        [get_repo_call "owner/repo"; get_contents_call "";
         get_contents_call "docs"])
  /\ post_analyse_github
       (Sample.env (inl (Exception "Connection refused")) [])
       (Scenario.request 5) []
     = (Failure 500 "An unexpected error occurred: Connection refused",
        [get_repo_call "owner/repo"]).
Proof.
  split; [|split; [|split; [|split]]].
  - apply (proj1 (proj2 failure_statuses)
             (Sample.env (inl (GithubException 401 "401 Bad credentials")) [])
             (Scenario.request 5) [] _ "owner" "repo" 401%Z
             "401 Bad credentials"); reflexivity.
  - apply (proj1 (proj2 failure_statuses)
             (Sample.env (inl (GithubException 404 "404 Not Found")) [])
             (Scenario.request 5) [] _ "owner" "repo" 404%Z
             "404 Not Found"); reflexivity.
  - apply (proj1 (proj2 failure_statuses)
             (Sample.env (Scenario.repository (Scenario.failing 403)) [])
             (Scenario.request 5) [] _ "owner" "repo" 403%Z
             "upstream said no"); reflexivity.
  - apply (proj1 (proj2 (proj2 failure_statuses))
             (Sample.env (Scenario.repository Scenario.documents) [])
             (Scenario.request 5) [] _ "owner" "repo"
             {| root := inr Scenario.documents |} Scenario.documents);
      reflexivity.
  - apply (proj2 (proj2 (proj2 failure_statuses))
             (Sample.env (inl (Exception "Connection refused")) [])
             (Scenario.request 5) [] _ "owner" "repo" "Connection refused");
      reflexivity.
Defined.

(** C7. When the answer of the model to analyze_code, or the one to
    generate_questions, is not JSON, the request fails with status 500 and
    a detail that carries the message of the parse error; no response with
    a score is returned, and the trace shows that the model was asked once
    for the answer that failed and not again. The same holds for an answer
    to analyze_code that is JSON but has no summary to read. *)
Theorem unparseable_answer_is_server_error :
  (forall (env : Env) (request : AnalysisRequest) (t t1 : trace)
          (code a1 text : string),
      fetch_github_code env (clean_input (github_url request))
        (GITHUB_ACCESS_TOKEN env) t = (inr code, t1) ->
      chain_run env (sent t1)
        (analyze_prompt code (clean_input (curriculum request))) = inr a1 ->
      json_loads env a1 = inl text ->
      post_analyse_github env request t
      = (Failure 500 ("An unexpected error occurred: " ++ text),
         (t1 ++ [chain_run_call
                   (analyze_prompt code
                      (clean_input (curriculum request)))])%list))
  /\ (forall (env : Env) (request : AnalysisRequest) (t t1 : trace)
             (code a1 a2 text : string) (result summary : pyval),
      let p1 := analyze_prompt code (clean_input (curriculum request)) in
      let p2 := questions_prompt (format_value env summary)
                  (clean_input (curriculum request))
                  (Str.of_int (question_count request)) in
      fetch_github_code env (clean_input (github_url request))
        (GITHUB_ACCESS_TOKEN env) t = (inr code, t1) ->
      chain_run env (sent t1) p1 = inr a1 ->
      json_loads env a1 = inr result ->
      getitem result "alignmentSummary" = inr summary ->
      chain_run env (sent (t1 ++ [chain_run_call p1])%list) p2 = inr a2 ->
      json_loads env a2 = inl text ->
      post_analyse_github env request t
      = (Failure 500 ("An unexpected error occurred: " ++ text),
         (t1 ++ [chain_run_call p1; chain_run_call p2])%list))
  /\ (forall (env : Env) (request : AnalysisRequest) (t t1 : trace)
             (code a1 : string) (result : pyval) (e : exn),
      let p1 := analyze_prompt code (clean_input (curriculum request)) in
      fetch_github_code env (clean_input (github_url request))
        (GITHUB_ACCESS_TOKEN env) t = (inr code, t1) ->
      chain_run env (sent t1) p1 = inr a1 ->
      json_loads env a1 = inr result ->
      getitem result "alignmentSummary" = inl e ->
      exists text,
        post_analyse_github env request t
        = (Failure 500 ("An unexpected error occurred: " ++ text),
           (t1 ++ [chain_run_call p1])%list)).
Proof.
  split; [|split].
  - intros env request t t1 code a1 text Hf Ha Hj.
    unfold post_analyse_github. rewrite analyse_github_code_run. cbv zeta.
    rewrite Hf, Ha, Hj. reflexivity.
  - intros env request t t1 code a1 a2 text result summary p1 p2
           Hf Ha1 Hj1 Hg Ha2 Hj2.
    unfold post_analyse_github. rewrite analyse_github_code_run. cbv zeta.
    subst p1 p2. rewrite Hf, Ha1, Hj1, Hg, Ha2, Hj2.
    rewrite <- app_assoc. reflexivity.
  - intros env request t t1 code a1 result e p1 Hf Ha1 Hj1 Hg.
    destruct (getitem_raises _ _ _ Hg) as [text ->]. exists text.
    unfold post_analyse_github. rewrite analyse_github_code_run. cbv zeta.
    subst p1. rewrite Hf, Ha1, Hj1, Hg. reflexivity.
Qed.

Lemma unparseable_answer_is_server_error_witness :
  post_analyse_github
    (Sample.env (Scenario.repository Scenario.sources)
                [inr "Sorry, I cannot help with that."])
    (Scenario.request 5) []
  = (Failure 500 "An unexpected error occurred: Expecting value",
     [get_repo_call "owner/repo"; get_contents_call "";
      get_contents_call "src";
      chain_run_call (analyze_prompt Scenario.sources_text
                        "implement login with 2FA")])
  /\ post_analyse_github
       (Sample.env (Scenario.repository Scenario.sources)
                   [inr Scenario.analysis; inr "1. What does a.py do?"])
       (Scenario.request 5) []
     = (Failure 500 "An unexpected error occurred: Extra data",
        [get_repo_call "owner/repo"; get_contents_call "";
         get_contents_call "src";
         chain_run_call (analyze_prompt Scenario.sources_text
                           "implement login with 2FA");
         chain_run_call (questions_prompt "close" "implement login with 2FA"
                           "5")]).
Proof.
  split.
  - apply (proj1 unparseable_answer_is_server_error
             (Sample.env (Scenario.repository Scenario.sources)
                         [inr "Sorry, I cannot help with that."])
             (Scenario.request 5) []
             [get_repo_call "owner/repo"; get_contents_call "";
              get_contents_call "src"]
             Scenario.sources_text
             "Sorry, I cannot help with that." "Expecting value");
      reflexivity.
  - apply (proj1 (proj2 unparseable_answer_is_server_error)
             (Sample.env (Scenario.repository Scenario.sources)
                         [inr Scenario.analysis; inr "1. What does a.py do?"])
             (Scenario.request 5) []
             [get_repo_call "owner/repo"; get_contents_call "";
              get_contents_call "src"]
             Scenario.sources_text
             Scenario.analysis "1. What does a.py do?" "Extra data"
             (PyDict [("alignmentScore", PyInt 80);
                      ("alignmentSummary", PyStr "close")])
             (PyStr "close"));
      reflexivity.
Defined.

Lemma prefix_app (a b : string) : prefix a (a ++ b) = true.
Proof.
  induction a as [|c a IH]; simpl; [now destruct b|].
  destruct (ascii_dec c c); [exact IH | contradiction].
Qed.

Lemma contains_app (sub a b : string) :
  Str.contains sub (a ++ sub ++ b) = true.
Proof.
  induction a as [|c a IH].
  - cbn [append]. destruct (sub ++ b) eqn:E; cbn [Str.contains];
      rewrite <- E, prefix_app; reflexivity.
  - cbn [append Str.contains]. rewrite IH. apply orb_true_r.
Qed.

(** C9, amended. generate_questions returns what json.loads made of the
    answer of the model, whatever its length: the requested count goes into
    the prompt and nowhere else, so two counts for which the model gives the
    same answer give the same questions. *)
Theorem questions_are_the_parsed_answer :
  (forall (env : Env) (summary : pyval) (requirement : string) (n : Z)
          (t : trace) (answer : string) (questions : pyval),
      chain_run env (sent t)
        (questions_prompt (format_value env summary) requirement
                          (Str.of_int n)) = inr answer ->
      json_loads env answer = inr questions ->
      generate_questions env summary requirement n t
      = (inr questions,
         (t ++ [chain_run_call
                  (questions_prompt (format_value env summary) requirement
                                    (Str.of_int n))])%list))
  /\ (forall (env : Env) (summary : pyval) (requirement : string) (n m : Z)
             (t : trace),
      chain_run env (sent t)
        (questions_prompt (format_value env summary) requirement
                          (Str.of_int n))
      = chain_run env (sent t)
          (questions_prompt (format_value env summary) requirement
                            (Str.of_int m)) ->
      fst (generate_questions env summary requirement n t)
      = fst (generate_questions env summary requirement m t))
  /\ (forall (summary requirement : string) (n : Z),
      Str.contains (Str.of_int n)
                   (questions_prompt summary requirement (Str.of_int n))
      = true).
Proof.
  split; [|split].
  - intros env summary requirement n t answer questions Ha Hj.
    unfold generate_questions, run_chain, loads, bind, lift.
    rewrite Ha, Hj. reflexivity.
  - intros env summary requirement n m t H.
    unfold generate_questions, run_chain, loads, bind, lift.
    rewrite H. clear H.
    destruct (chain_run env (sent t) _) as [x|answer]; [reflexivity|].
    destruct (json_loads env answer); reflexivity.
  - intros summary requirement n. unfold questions_prompt.
    apply contains_app.
Qed.

Lemma questions_are_the_parsed_answer_witness :
  generate_questions
    (Sample.env (Scenario.repository Scenario.sources)
                [inr Scenario.two_questions])
    (PyStr "close") "implement login with 2FA" 1 []
  = (inr (PyList
            [PyDict [("question", PyStr "q1"); ("lookingFor", PyStr "l1")];
             PyDict [("question", PyStr "q2"); ("lookingFor", PyStr "l2")]]),
     [chain_run_call
        (questions_prompt "close" "implement login with 2FA" "1")]).
Proof.
  apply (proj1 questions_are_the_parsed_answer
           (Sample.env (Scenario.repository Scenario.sources)
                       [inr Scenario.two_questions])
           (PyStr "close") "implement login with 2FA" 1%Z []
           Scenario.two_questions); reflexivity.
Defined.

(** C9, as stated, fails: asked for one question, the model answers two
    and the response has both. *)
Lemma questions_within_count_counterexample :
  ~ (forall (env : Env) (request : AnalysisRequest) (t t' : trace)
            (body : AnalysisResponse),
        valid_request request ->
        post_analyse_github env request t = (Success body, t') ->
        (Z.of_nat (List.length (questions_list body))
         <= question_count request)%Z).
Proof.
  intros H.
  specialize (H (Sample.env (Scenario.repository Scenario.sources)
                            Scenario.answers)
                (Scenario.request 1) []
                (snd (post_analyse_github
                        (Sample.env (Scenario.repository Scenario.sources)
                                    Scenario.answers)
                        (Scenario.request 1) []))
                {| alignment_score := 80;
                   alignment_summary := "close";
                   questions_list :=
                     [[("question", "q1"); ("lookingFor", "l1")];
                      [("question", "q2"); ("lookingFor", "l2")]] |}).
  assert (V : valid_request (Scenario.request 1)).
  { unfold valid_request. simpl. lia. }
  specialize (H V eq_refl). simpl in H. lia.
Qed.

(** ** The repository identifier *)

Lemma index_from_end_app {A} (front back : list A) (x : A) :
  index_from_end (front ++ x :: back)%list (S (List.length back)) = inr x.
Proof.
  unfold index_from_end. rewrite length_app. cbn [List.length].
  replace (S (List.length back)
           <=? List.length front + S (List.length back))%nat with true
    by (symmetry; apply Nat.leb_le; lia).
  replace (List.length front + S (List.length back) - S (List.length back))
    with (List.length front) by lia.
  rewrite nth_error_app2 by lia. rewrite Nat.sub_diag. reflexivity.
Qed.

Lemma owner_and_repo_parts (url : string) (front : list string)
    (owner repo : string) :
  Str.split "/" url = (front ++ [owner; repo])%list ->
  owner_and_repo url = inr (owner, repo).
Proof.
  intros H. unfold owner_and_repo. rewrite H.
  pose proof (index_from_end_app front [repo] owner) as H2.
  pose proof (index_from_end_app (front ++ [owner]) [] repo) as H1.
  rewrite <- app_assoc in H1. cbn [List.length app] in H1, H2.
  rewrite H2, H1. reflexivity.
Qed.

Lemma split_last_two (a b : string) :
  exists front owner repo,
    Str.split "/" (a ++ "/" ++ b) = (front ++ [owner; repo])%list.
Proof.
  change (a ++ "/" ++ b) with (a ++ String "/" b). rewrite split_app.
  destruct (exists_last (split_not_nil "/" a)) as [fa [la Ea]].
  destruct (exists_last (split_not_nil "/" b)) as [fb [lb Eb]].
  rewrite Ea, Eb. destruct fb as [|x fb] using rev_ind.
  - exists fa, la, lb. rewrite <- app_assoc. reflexivity.
  - exists (fa ++ [la] ++ fb)%list, x, lb.
    rewrite <- !app_assoc. reflexivity.
Qed.

Lemma fetch_github_code_first_call (env : Env) (url token : string)
    (t : trace) (owner repo : string) :
  owner_and_repo url = inr (owner, repo) ->
  exists added,
    snd (fetch_github_code env url token t)
    = (t ++ get_repo_call (owner ++ "/" ++ repo) :: added)%list.
Proof.
  intros Hu. rewrite fetch_github_code_by_body, Hu, fetch_body_run.
  assert (G : forall e t0, snd (on_GithubException e t0) = t0).
  { intros [[status x|x]|s d] t0; cbn [on_GithubException];
      [|reflexivity|reflexivity].
    destruct (status =? 401)%Z; [|destruct (status =? 404)%Z]; reflexivity. }
  destruct (get_repo env token _) as [e|repository].
  { exists []. apply G. }
  destruct (root repository) as [e|contents].
  { exists [get_contents_call ""]. apply G. }
  destruct (while_contents_trace contents ""
              (t ++ [get_repo_call (owner ++ "/" ++ repo);
                     get_contents_call ""])%list) as [added Ha].
  exists (get_contents_call "" :: added).
  destruct (while_contents contents "" _) as [[e|code] t0]; cbn [snd] in Ha.
  - rewrite G, Ha, <- app_assoc. reflexivity.
  - destruct (String.eqb code ""); cbn [snd]; rewrite ?G, Ha, <- app_assoc;
      reflexivity.
Qed.

(** C10, amended. For a URL with at least two parts between slashes,
    fetch_github_code takes the last two as owner and repository name and
    asks the hosting service for owner/name, so a URL that ends with a
    slash gives an empty name. No check of the URL comes before; a URL
    without a slash has one part only, the lookup of the part before the
    last raises IndexError before any call to the hosting service, and the
    handler answers 500. *)
Theorem owner_and_repo_are_the_last_two_parts :
  (forall (url : string) (front : list string) (owner repo : string),
      Str.split "/" url = (front ++ [owner; repo])%list ->
      owner_and_repo url = inr (owner, repo)
      /\ forall (env : Env) (token : string) (t : trace),
           exists added,
             snd (fetch_github_code env url token t)
             = (t ++ get_repo_call (owner ++ "/" ++ repo) :: added)%list)
  /\ (forall a b : string,
      exists front owner repo,
        Str.split "/" (a ++ "/" ++ b) = (front ++ [owner; repo])%list)
  /\ (forall u : string,
      exists owner, owner_and_repo (u ++ "/") = inr (owner, ""))
  /\ (forall (env : Env) (url token : string) (t : trace),
      (List.length (Str.split "/" url) < 2)%nat ->
      fetch_github_code env url token t
      = (inl (Plain (Exception "list index out of range")), t))
  /\ (forall (env : Env) (request : AnalysisRequest) (t : trace),
      (List.length (Str.split "/" (clean_input (github_url request))) < 2)%nat ->
      post_analyse_github env request t
      = (Failure 500 "An unexpected error occurred: list index out of range",
         t)).
Proof.
  assert (One : forall url,
             (List.length (Str.split "/" url) < 2)%nat ->
             owner_and_repo url
             = inl (Plain (Exception "list index out of range"))).
  { intros url H. unfold owner_and_repo, index_from_end.
    destruct (Str.split "/" url) as [|x [|y l]]; simpl in *;
      [reflexivity | reflexivity | lia]. }
  split; [|split; [|split; [|split]]].
  - intros url front owner repo H.
    pose proof (owner_and_repo_parts url front owner repo H) as Hu.
    split; [exact Hu|]. intros env token t.
    now apply fetch_github_code_first_call.
  - apply split_last_two.
  - intros u. destruct (exists_last (split_not_nil "/" u)) as [front [owner E]].
    exists owner. apply (owner_and_repo_parts _ front).
    change (u ++ "/") with (u ++ String "/" ""). rewrite split_app, E.
    rewrite <- app_assoc. reflexivity.
  - intros env url token t H.
    rewrite fetch_github_code_by_body, (One url H). reflexivity.
  - intros env request t H. unfold post_analyse_github.
    rewrite analyse_github_code_run. cbv zeta.
    rewrite fetch_github_code_by_body, (One _ H). reflexivity.
Qed.

Lemma owner_and_repo_are_the_last_two_parts_witness :
  owner_and_repo "https://github.com/owner/repo" = inr ("owner", "repo")
  /\ owner_and_repo "https://github.com/owner/repo/" = inr ("repo", "")
  /\ post_analyse_github
       (Sample.env (Scenario.repository Scenario.sources) Scenario.answers)
       {| github_url := "repo"; curriculum := "x"; question_count := 3 |} []
     = (Failure 500 "An unexpected error occurred: list index out of range",
        []).
Proof.
  split; [|split].
  - apply (proj1 owner_and_repo_are_the_last_two_parts
             "https://github.com/owner/repo" ["https:"; ""; "github.com"]
             "owner" "repo"). reflexivity.
  - apply (proj1 owner_and_repo_are_the_last_two_parts
             "https://github.com/owner/repo/"
             ["https:"; ""; "github.com"; "owner"] "repo" ""). reflexivity.
  - apply (proj2 (proj2 (proj2 (proj2 owner_and_repo_are_the_last_two_parts)))).
    simpl. lia.
Defined.

(** C10, as stated, fails: a URL of one part gives no owner and no name,
    and the fetch raises IndexError without a call to the hosting
    service. *)
Lemma owner_and_repo_counterexample :
  ~ (forall url : string,
        exists owner repo, owner_and_repo url = inr (owner, repo))
  /\ fetch_github_code
       (Sample.env (Scenario.repository Scenario.sources) []) "repo" "token" []
     = (inl (Plain (Exception "list index out of range")), []).
Proof.
  split; [|reflexivity].
  intros H. destruct (H "repo") as [owner [repo E]]. discriminate E.
Qed.

(** ** Runs on concrete inputs *)

Example lower_mixed : Str.lower "Src/Main.PY" = "src/main.py".
Proof. reflexivity. Qed.

Example split_url :
  Str.split "/" "https://github.com/o/r/"
  = ["https:"; ""; "github.com"; "o"; "r"; ""].
Proof. reflexivity. Qed.

Example split_empty : Str.split "/" "" = [""].
Proof. reflexivity. Qed.

Example filter_accepts : should_process_path "src/Main.PY" = true.
Proof. reflexivity. Qed.

Example filter_refuses_folder : should_process_path "Node_Modules/a/x.js" = false.
Proof. reflexivity. Qed.

Example filter_refuses_extension : should_process_path "docs/guide.md" = false.
Proof. reflexivity. Qed.

(** A tab and a line feed are control characters and go away; the spaces
    that stay are joined. *)
Example clean_input_runs :
  clean_input (" a" ++ String (ascii_of_nat 9) ""
               ++ "b   c" ++ LF ++ "  d  ")
  = "ab c d".
Proof. reflexivity. Qed.

Example clean_input_url :
  clean_input "  https://github.com/owner/repo " = Scenario.url.
Proof. reflexivity. Qed.

(** Two accepted files of which one decodes, an answer with a score and
    an answer with two questions. *)
Example request_succeeds :
  fst (post_analyse_github
         (Sample.env (Scenario.repository Scenario.partly) Scenario.answers)
         (Scenario.request 5) [])
  = Success {| alignment_score := 80;
               alignment_summary := "close";
               questions_list :=
                 [[("question", "q1"); ("lookingFor", "l1")];
                  [("question", "q2"); ("lookingFor", "l2")]] |}.
Proof. reflexivity. Qed.

(** * Further properties *)

(** ** The sanitizer, continued *)

Lemma sub_control_app (a b : string) :
  sub_control (a ++ b) = sub_control a ++ sub_control b.
Proof.
  induction a as [|c a IH]; [reflexivity|]. simpl.
  destruct (is_control c); simpl; congruence.
Qed.

Lemma sub_control_fixed (s : string) :
  Forall (fun c => is_control c = false) (Str.chars s) -> sub_control s = s.
Proof.
  induction s as [|c s IH]; intros H; [reflexivity|].
  inversion H as [|? ? Hc Hs]; subst. simpl. rewrite Hc, (IH Hs). reflexivity.
Qed.

Lemma sub_spaces_from_fixed (s : string) :
  forall b,
    no_space_run s = true ->
    Forall (fun c => Str.isspace c = true -> c = " "%char) (Str.chars s) ->
    (b = true -> forall c, first_char s = Some c -> Str.isspace c = false) ->
    sub_spaces_from b s = s.
Proof.
  induction s as [|c s IH]; intros b Hrun Hsp Hfirst; [reflexivity|].
  inversion Hsp as [|? ? Hc Hs]; subst. cbn [sub_spaces_from].
  pose proof (no_space_run_tail _ _ Hrun) as Hrun'.
  destruct (Str.isspace c) eqn:E.
  - destruct b.
    + specialize (Hfirst eq_refl c eq_refl). congruence.
    + rewrite (Hc eq_refl). f_equal. apply IH; try assumption.
      intros _ c2 H2. destruct s as [|c3 s]; [discriminate|].
      simpl in H2. injection H2 as ->.
      cbn [no_space_run] in Hrun. rewrite E in Hrun.
      destruct (Str.isspace c2); [discriminate | reflexivity].
  - f_equal. apply IH; try assumption. discriminate.
Qed.

Lemma lstrip_fixed (s : string) :
  (forall c, first_char s = Some c -> Str.isspace c = false) ->
  Str.lstrip s = s.
Proof.
  destruct s as [|c s]; intros H; [reflexivity|].
  simpl. now rewrite (H c eq_refl).
Qed.

Lemma rstrip_fixed (s : string) :
  (forall c, last_char s = Some c -> Str.isspace c = false) ->
  Str.rstrip s = s.
Proof.
  induction s as [|c s IH]; intros H; [reflexivity|].
  cbn [Str.rstrip]. destruct s as [|c2 s].
  - simpl. now rewrite (H c eq_refl).
  - rewrite IH; [reflexivity|]. intros x Hx. apply H. exact Hx.
Qed.

(** The shape of a sanitized text. *)
Lemma clean_input_shape (text : string) :
  Forall (fun c => is_control c = false) (Str.chars (clean_input text))
  /\ Forall (fun c => Str.isspace c = true -> c = " "%char)
            (Str.chars (clean_input text))
  /\ no_space_run (clean_input text) = true
  /\ (forall c, first_char (clean_input text) = Some c ->
                Str.isspace c = false)
  /\ (forall c, last_char (clean_input text) = Some c ->
                Str.isspace c = false).
Proof.
  unfold clean_input, sub_spaces. repeat split.
  - apply strip_chars, sub_spaces_from_chars;
      [reflexivity | apply sub_control_chars].
  - apply strip_chars, sub_spaces_from_spaces.
  - apply lstrip_runs, rstrip_runs, sub_spaces_from_runs.
  - apply lstrip_first.
  - apply lstrip_last. apply rstrip_last.
Qed.

(** X1. Sanitizing twice is sanitizing once. *)
Theorem clean_input_idempotent (text : string) :
  clean_input (clean_input text) = clean_input text.
Proof.
  destruct (clean_input_shape text) as [Hc [Hs [Hr [Hf Hl]]]].
  set (r := clean_input text) in *.
  unfold clean_input at 1, sub_spaces, Str.strip.
  rewrite (sub_control_fixed r Hc).
  rewrite (sub_spaces_from_fixed r false Hr Hs) by discriminate.
  rewrite (rstrip_fixed r Hl). apply (lstrip_fixed r Hf).
Qed.

Lemma strip_lead (c : ascii) (s : string) :
  Str.isspace c = true -> Str.strip (String c s) = Str.strip s.
Proof.
  intros E. unfold Str.strip. cbn [Str.rstrip].
  destruct (Str.rstrip s) as [|c2 r].
  - rewrite E. reflexivity.
  - cbn [Str.lstrip]. rewrite E. reflexivity.
Qed.

Lemma strip_sub_spaces_from (s : string) :
  Str.strip (sub_spaces_from true s) = Str.strip (sub_spaces_from false s).
Proof.
  destruct s as [|c s]; [reflexivity|]. cbn [sub_spaces_from].
  destruct (Str.isspace c); [|reflexivity].
  symmetry. now apply strip_lead.
Qed.

Lemma rstrip_trail (c : ascii) (s : string) :
  Str.isspace c = true -> Str.rstrip (s ++ String c "") = Str.rstrip s.
Proof.
  intros E. induction s as [|d s IH].
  - simpl. now rewrite E.
  - cbn [append Str.rstrip]. rewrite IH. reflexivity.
Qed.

Lemma sub_spaces_from_trail (c : ascii) (s : string) :
  Str.isspace c = true ->
  forall b,
    sub_spaces_from b (s ++ String c "") = sub_spaces_from b s
    \/ sub_spaces_from b (s ++ String c "") = sub_spaces_from b s ++ " ".
Proof.
  intros E. induction s as [|d s IH]; intros b.
  - simpl. rewrite E. destruct b; [now left | now right].
  - cbn [append sub_spaces_from]. destruct (Str.isspace d).
    + destruct b.
      * apply IH.
      * destruct (IH true) as [H|H]; rewrite H; [now left | now right].
    + destruct (IH false) as [H|H]; rewrite H; [now left | now right].
Qed.

Lemma clean_input_lead (c : ascii) (s : string) :
  blank c = true -> clean_input (String c s) = clean_input s.
Proof.
  unfold blank, clean_input, sub_spaces. intros H. cbn [sub_control].
  destruct (is_control c); [reflexivity|]. cbn [orb] in H.
  cbn [sub_spaces_from]. rewrite H.
  rewrite (strip_lead " " _ eq_refl). apply strip_sub_spaces_from.
Qed.

Lemma clean_input_trail (c : ascii) (s : string) :
  blank c = true -> clean_input (s ++ String c "") = clean_input s.
Proof.
  unfold blank, clean_input, sub_spaces. intros H.
  rewrite sub_control_app. cbn [sub_control].
  destruct (is_control c); [now rewrite append_nil_r|]. cbn [orb] in H.
  unfold Str.strip.
  destruct (sub_spaces_from_trail c (sub_control s) H false) as [-> | ->];
    [|rewrite (rstrip_trail " " _ eq_refl)]; reflexivity.
Qed.

Lemma clean_input_blank_before (a s : string) :
  all_blank a = true -> clean_input (a ++ s) = clean_input s.
Proof.
  induction a as [|c a IH]; intros Ha; [reflexivity|].
  cbn [all_blank] in Ha. apply andb_true_iff in Ha. destruct Ha as [Hc Ha].
  cbn [append]. rewrite (clean_input_lead c _ Hc). exact (IH Ha).
Qed.

Lemma clean_input_blank_after (b : string) :
  all_blank b = true -> forall s, clean_input (s ++ b) = clean_input s.
Proof.
  induction b as [|c b IH]; intros Hb s; [now rewrite append_nil_r|].
  cbn [all_blank] in Hb. apply andb_true_iff in Hb. destruct Hb as [Hc Hb].
  replace (s ++ String c b) with ((s ++ String c "") ++ b)
    by (rewrite append_assoc; reflexivity).
  rewrite (IH Hb). now apply clean_input_trail.
Qed.

(** X2. Control characters and whitespace before and after a text do not
    change what clean_input returns for it. *)
Theorem clean_input_ignores_padding (before after text : string) :
  all_blank before = true -> all_blank after = true ->
  clean_input (before ++ text ++ after) = clean_input text.
Proof.
  intros Hb Ha.
  rewrite (clean_input_blank_before before (text ++ after) Hb).
  apply (clean_input_blank_after after Ha).
Qed.

Lemma clean_input_ignores_padding_witness :
  clean_input ("  " ++ LF ++ "https://github.com/owner/repo" ++ " " ++ LF)
  = clean_input "https://github.com/owner/repo".
Proof.
  apply (clean_input_ignores_padding ("  " ++ LF)
           (" " ++ LF) "https://github.com/owner/repo"); reflexivity.
Defined.

(** X3. A control character is taken away wherever it stands, a tab or a
    line feed like any other: the texts on its two sides are joined with
    nothing between them. *)
Theorem clean_input_drops_control (c : ascii) (a b : string) :
  is_control c = true ->
  clean_input (a ++ String c b) = clean_input (a ++ b).
Proof.
  intros H. unfold clean_input. rewrite !sub_control_app.
  cbn [sub_control]. rewrite H. reflexivity.
Qed.

Lemma clean_input_drops_control_witness :
  clean_input ("two" ++ LF ++ "words") = "twowords".
Proof.
  exact (eq_trans
           (clean_input_drops_control (ascii_of_nat 10) "two" "words" eq_refl)
           eq_refl).
Defined.

Lemma filter_nil_inv {A} (f : A -> bool) (l : list A) :
  filter f l = [] -> forallb (fun x => negb (f x)) l = true.
Proof.
  induction l as [|x l IH]; [reflexivity|]. simpl.
  destruct (f x); [discriminate|]. exact IH.
Qed.

(** X4. clean_input returns the empty text exactly for the texts made of
    control characters and whitespace only. *)
Theorem clean_input_empty (text : string) :
  clean_input text = "" <-> all_blank text = true.
Proof.
  split.
  - intros H. pose proof (clean_input_letters text) as L. rewrite H in L.
    simpl in L. symmetry in L. apply filter_nil_inv in L.
    clear H. induction text as [|c s IH]; [reflexivity|].
    simpl in L. apply andb_true_iff in L. destruct L as [Lc Ls].
    cbn [all_blank]. rewrite (IH Ls), andb_true_r. unfold blank.
    destruct (is_control c), (Str.isspace c); try reflexivity; discriminate.
  - intros H. rewrite <- (append_nil_r text).
    now rewrite (clean_input_blank_before text "" H).
Qed.

(** X5. clean_input keeps the characters of the text that are neither
    control characters nor whitespace, all of them and in their order; what
    it adds and takes away is whitespace and control characters. *)
Theorem clean_input_keeps_letters (text : string) :
  filter (fun c => negb (Str.isspace c)) (Str.chars (clean_input text))
  = filter (fun c => negb (blank c)) (Str.chars text).
Proof.
  rewrite clean_input_letters. apply filter_ext. intros c. unfold blank.
  now rewrite negb_orb.
Qed.

(** ** The sanitizer and the words of a text *)

Example words_of_a_line :
  words ("  two" ++ LF ++ "lines " ++ LF ++ " of text ")
  = ["two"; "lines"; "of"; "text"].
Proof. reflexivity. Qed.

Lemma rstrip_cons (c : ascii) (s : string) :
  Str.isspace c = false -> Str.rstrip (String c s) = String c (Str.rstrip s).
Proof.
  intros E. cbn [Str.rstrip]. destruct (Str.rstrip s); [|reflexivity].
  now rewrite E.
Qed.

Lemma words_head (s : string) :
  match words s with
  | [] => True
  | w :: _ => exists c w', w = String c w' /\ Str.isspace c = false
  end.
Proof.
  induction s as [|c s IH]; [exact I|]. cbn [words].
  destruct (Str.isspace c) eqn:E; [exact IH|].
  destruct s as [|d s]; [eauto|].
  destruct (Str.isspace d); [eauto|].
  destruct (words (String d s)); eauto.
Qed.

Lemma joined_words_empty (s : string) :
  joined_words s = "" -> words s = [].
Proof.
  unfold joined_words. pose proof (words_head s) as H.
  destruct (words s) as [|w r]; [reflexivity|].
  destruct H as [c [w' [-> _]]]. destruct r; discriminate.
Qed.

Lemma joined_words_first (s : string) (c : ascii) :
  first_char (joined_words s) = Some c -> Str.isspace c = false.
Proof.
  unfold joined_words. pose proof (words_head s) as H.
  destruct (words s) as [|w r]; [discriminate|].
  destruct H as [d [w' [-> E]]].
  destruct r; simpl; intros H; injection H as <-; exact E.
Qed.

Lemma concat_cons_char (c : ascii) (w : string) (r : list string) :
  String.concat " " (String c w :: r) = String c (String.concat " " (w :: r)).
Proof. destruct r; reflexivity. Qed.

(** The text between the two strips: the words joined, after one space when
    the text starts with whitespace and has a word. *)
Lemma rstrip_sub_spaces_from (s : string) :
  Str.rstrip (sub_spaces_from true s) = joined_words s
  /\ Str.rstrip (sub_spaces_from false s)
     = match s with
       | String c _ =>
           if Str.isspace c
           then match words s with
                | [] => ""
                | _ :: _ => String " " (joined_words s)
                end
           else joined_words s
       | "" => ""
       end.
Proof.
  induction s as [|c s [IHt IHf]]; [split; reflexivity|].
  cbn [sub_spaces_from]. destruct (Str.isspace c) eqn:E.
  - assert (W : words (String c s) = words s) by (cbn [words]; now rewrite E).
    assert (J : joined_words (String c s) = joined_words s)
      by (unfold joined_words; now rewrite W).
    split; [now rewrite J|].
    cbn [Str.rstrip]. rewrite IHt, W, J.
    destruct (joined_words s) eqn:Js.
    + rewrite (joined_words_empty s Js). reflexivity.
    + unfold joined_words in Js.
      destruct (words s); [discriminate Js | reflexivity].
  - assert (R : Str.rstrip (String c (sub_spaces_from false s))
                = joined_words (String c s)).
    { rewrite (rstrip_cons c _ E), IHf. unfold joined_words. cbn [words].
      rewrite E. destruct s as [|d s]; [reflexivity|].
      destruct (Str.isspace d) eqn:D.
      - assert (W : words (String d s) = words s)
          by (cbn [words]; now rewrite D).
        rewrite W. destruct (words s); reflexivity.
      - pose proof (words_head (String d s)) as H.
        destruct (words (String d s)) as [|w r] eqn:W.
        + exfalso. cbn [words] in W. rewrite D in W.
          destruct s as [|d2 s]; [discriminate|].
          destruct (Str.isspace d2); [discriminate|].
          destruct (words (String d2 s)); discriminate.
        + now rewrite concat_cons_char. }
    split; exact R.
Qed.

(** Collapsing the whitespace and stripping gives the words, one space
    between two of them. *)
Lemma strip_sub_spaces (s : string) :
  Str.strip (sub_spaces s) = joined_words s.
Proof.
  unfold Str.strip, sub_spaces.
  rewrite (proj2 (rstrip_sub_spaces_from s)).
  assert (L : Str.lstrip (joined_words s) = joined_words s).
  { apply lstrip_fixed. apply joined_words_first. }
  destruct s as [|c s]; [reflexivity|].
  destruct (Str.isspace c); [|exact L].
  destruct (words (String c s)) eqn:W.
  - unfold joined_words. rewrite W. reflexivity.
  - cbn [Str.lstrip]. change (Str.isspace " ") with true. cbv iota. exact L.
Qed.

(** C6, amended. For every text, clean_input returns the words of the text
    without its control characters, joined by single spaces. So the result
    has no control character, whitespace in it is a single space between
    two words, and it neither starts nor ends with whitespace; a run of
    whitespace of the text that has a character which is not a control
    character (a space, a no-break space) between two words becomes one
    space, and a run made of control characters only (tabs, line feeds) is
    taken away, the words on its two sides joined. On a text without
    control characters the result is the words of the text joined by
    single spaces. *)
Theorem clean_input_joins_words (text : string) :
  clean_input text = joined_words (sub_control text)
  /\ (Forall (fun c => is_control c = false) (Str.chars text) ->
      clean_input text = joined_words text)
  /\ Forall (fun c => is_control c = false) (Str.chars (clean_input text))
  /\ Forall (fun c => Str.isspace c = true -> c = " "%char)
            (Str.chars (clean_input text))
  /\ no_space_run (clean_input text) = true
  /\ (forall c, first_char (clean_input text) = Some c ->
                Str.isspace c = false)
  /\ (forall c, last_char (clean_input text) = Some c ->
                Str.isspace c = false).
Proof.
  split; [|split].
  - unfold clean_input. apply strip_sub_spaces.
  - intros H. unfold clean_input. rewrite (sub_control_fixed text H).
    apply strip_sub_spaces.
  - apply clean_input_shape.
Qed.

Lemma clean_input_joins_words_witness :
  clean_input "  implement   login  with 2FA "
  = joined_words "  implement   login  with 2FA ".
Proof.
  apply (proj1 (proj2 (clean_input_joins_words
                         "  implement   login  with 2FA "))).
  repeat constructor.
Defined.

(** C6, as stated, fails: the line feed between the words one and line is
    whitespace inside the text, and the result has no space in its place:
    four words come in and three go out. *)
Lemma clean_input_counterexample :
  clean_input ("line one" ++ LF ++ "line two") = "line oneline two"
  /\ Str.isspace (ascii_of_nat 10) = true
  /\ words ("line one" ++ LF ++ "line two") = ["line"; "one"; "line"; "two"]
  /\ words (clean_input ("line one" ++ LF ++ "line two"))
     = ["line"; "oneline"; "two"]
  /\ clean_input ("line one" ++ LF ++ "line two")
     <> joined_words ("line one" ++ LF ++ "line two").
Proof. repeat split. discriminate. Qed.

(** ** The filter and the pruning, continued *)

Lemma below_forbidden_part_refused_witness :
  should_process_path ("src/Node_Modules" ++ "/" ++ "lib/index.js") = false.
Proof.
  apply (below_forbidden_part_refused "src/Node_Modules" "lib/index.js").
  reflexivity.
Defined.

Lemma forbidden_part_is_unopened_witness :
  dir_is_forbidden "app/.VSCode" = true.
Proof. apply (forbidden_part_is_unopened "app/.VSCode"). reflexivity. Defined.

(** ** The traversal, continued *)

(** Whatever the repository, each segment of a text that the loop returns is
    the segment of a file of the queue that the filter accepts and that
    decodes, and no such file has two segments. *)
Lemma while_contents_sound (q : list ContentFile) :
  forall code t text t',
    while_contents q code t = (inr text, t') ->
    exists l skipped,
      text = code ++ segments l
      /\ Permutation (map decoded_as l ++ skipped)%list
           (filter (fun f => qualifies f && decodes f) (all_files q)).
Proof.
  unfold all_files.
  induction q as [|p d rest IH|p e0 rest IH|p cs rest IH1 IH2] using queue_ind;
    intros code t text t'; rewrite while_contents_round.
  - intros H. injection H as <- _. exists [], []. simpl.
    now rewrite append_nil_r.
  - cbn [flat_map files_of app filter]. unfold qualifies at 1, decodes at 1.
    cbn [fst snd]. destruct (should_process_path p); cbn [andb].
    + destruct d as [x|data].
      * apply IH.
      * intros H. destruct (IH _ _ _ _ H) as [l [skipped [E P]]].
        exists ((p, data) :: l), skipped. split.
        -- rewrite E. cbn [segments]. now rewrite append_assoc.
        -- cbn [map app]. unfold decoded_as at 1. cbn [fst snd].
           now apply perm_skip.
    + apply IH.
  - cbn [flat_map files_of app].
    destruct (dir_is_forbidden p); [apply IH | discriminate].
  - cbn [flat_map files_of]. rewrite filter_app.
    destruct (dir_is_forbidden p).
    + intros H. destruct (IH1 _ _ _ _ H) as [l [skipped [E P]]].
      exists l, (skipped ++ filter (fun f => qualifies f && decodes f)
                                   (flat_map files_of cs))%list.
      split; [exact E|]. rewrite app_assoc.
      eapply Permutation_trans; [|apply Permutation_app_comm].
      now apply Permutation_app_tail.
    + intros H. destruct (IH2 _ _ _ _ H) as [l [skipped [E P]]].
      exists l, skipped. split; [exact E|].
      rewrite flat_map_app, filter_app in P.
      eapply Permutation_trans; [exact P | apply Permutation_app_comm].
Qed.

(** X8. Whatever the repository, a text that fetch_github_code returns is a
    sequence of one or more segments, each the segment of a file of the
    repository that should_process_path accepts and that decodes, and no
    file has two segments: nothing of a refused path is in the text. *)
Theorem fetched_text_is_sound (env : Env) (url token : string)
    (t t' : trace) (owner repo : string) (repository : Repository)
    (contents : list ContentFile) (text : string) :
  owner_and_repo url = inr (owner, repo) ->
  get_repo env token (owner ++ "/" ++ repo) = inr repository ->
  root repository = inr contents ->
  fetch_github_code env url token t = (inr text, t') ->
  exists l skipped,
    l <> []
    /\ text = segments l
    /\ Permutation (map decoded_as l ++ skipped)%list
         (filter (fun f => qualifies f && decodes f) (all_files contents)).
Proof.
  intros Hu Hr Hc.
  rewrite (fetch_github_code_run env url token t owner repo repository
             contents Hu Hr Hc).
  destruct (while_contents contents "" _) as [[e|code] t0] eqn:W.
  { intros H. exfalso. exact (on_GithubException_fails _ _ _ _ H). }
  destruct (while_contents_sound _ _ _ _ _ W) as [l [skipped [E P]]].
  cbn [append] in E. subst code. rewrite segments_empty.
  destruct l as [|f l]; [discriminate|].
  intros H. injection H as <- _. exists (f :: l), skipped.
  split; [discriminate|]. split; [reflexivity | exact P].
Qed.

Lemma fetched_text_is_sound_witness :
  exists l skipped,
    l <> []
    /\ segment "ok.py" "pass" = segments l
    /\ Permutation (map decoded_as l ++ skipped)%list
         [("environment/main.py", inr "print(1)"); ("ok.py", inr "pass")].
Proof.
  apply (fetched_text_is_sound
           (Sample.env (Scenario.repository Scenario.mixed) [])
           Scenario.url "token" []
           [get_repo_call "owner/repo"; get_contents_call ""; 
            print_call (warning "bad.py"
              "'utf-8' codec can't decode byte 0xff in position 0: invalid start byte")]
           "owner" "repo"
           {| root := inr Scenario.mixed |} Scenario.mixed);
    reflexivity.
Defined.

(** X9. When a directory that the loop opens cannot be listed, the fetch
    returns no text at all, whatever it has read before. *)
Theorem listing_failure_discards_text (env : Env) (url token : string)
    (t : trace) (owner repo : string) (repository : Repository)
    (contents : list ContentFile) :
  owner_and_repo url = inr (owner, repo) ->
  get_repo env token (owner ++ "/" ++ repo) = inr repository ->
  root repository = inr contents ->
  forallb listable contents = false ->
  exists e t', fetch_github_code env url token t = (inl e, t').
Proof.
  intros Hu Hr Hc Hl.
  destruct (fetch_github_code env url token t) as [[e|text] t'] eqn:F;
    [eauto|].
  destruct (fetch_github_code_returns _ _ _ _ _ _ F)
    as [o [r [repository' [contents' [Hu' [Hr' [Hc' Hl']]]]]]].
  rewrite Hu in Hu'. injection Hu' as <- <-.
  rewrite Hr in Hr'. injection Hr' as <-.
  rewrite Hc in Hc'. injection Hc' as <-. congruence.
Qed.

Lemma listing_failure_discards_text_witness :
  exists e t',
    fetch_github_code
      (Sample.env (Scenario.repository (Scenario.failing 502)) [])
      Scenario.url "token" [] = (inl e, t').
Proof.
  apply (listing_failure_discards_text
           (Sample.env (Scenario.repository (Scenario.failing 502)) [])
           Scenario.url "token" [] "owner" "repo"
           {| root := inr (Scenario.failing 502) |} (Scenario.failing 502));
    reflexivity.
Defined.

Lemma level_listing (q : list ContentFile) :
  forallb entry_listable q = true ->
  forall r code t,
    while_contents (q ++ r)%list code t
    = while_contents (r ++ next_level q)%list (code ++ level_text q)
                     (t ++ level_events q)%list.
Proof.
  unfold next_level, level_events.
  induction q as [|c q IH]; intros Hl r code t.
  - simpl. now rewrite !app_nil_r, append_nil_r.
  - cbn [forallb] in Hl. apply andb_true_iff in Hl. destruct Hl as [Hc Hq].
    cbn [app]. rewrite (while_contents_round (c :: q ++ r)).
    cbn [flat_map level_text]. destruct c as [p [x|data]|p [e|cs]];
      cbn [opened_children entry_text entry_events app].
    + destruct (should_process_path p).
      * rewrite (IH Hq). now rewrite <- app_assoc.
      * now rewrite (IH Hq).
    + destruct (should_process_path p).
      * rewrite (IH Hq). now rewrite append_assoc.
      * now rewrite (IH Hq).
    + cbn [entry_listable] in Hc. rewrite Hc. now rewrite (IH Hq).
    + destruct (dir_is_forbidden p).
      * now rewrite (IH Hq).
      * rewrite <- app_assoc. rewrite (IH Hq).
        now rewrite <- !app_assoc.
Qed.

(** X10. The traversal is breadth first: the entries of a listing are handled
    in their order, then what stood in the queue behind them, and the
    children of the directories opened among them only after that. A
    listing without an opened directory gives the segments of its accepted
    files in the order of the listing. *)
Theorem traversal_is_breadth_first :
  (forall (q r : list ContentFile) (code : string) (t : trace),
      forallb entry_listable q = true ->
      while_contents (q ++ r)%list code t
      = while_contents (r ++ next_level q)%list (code ++ level_text q)
                       (t ++ level_events q)%list)
  /\ (forall (q : list ContentFile) (code : string) (t : trace),
      forallb entry_listable q = true ->
      next_level q = [] ->
      while_contents q code t
      = (inr (code ++ level_text q), (t ++ level_events q)%list)).
Proof.
  split.
  - intros q r code t H. now apply level_listing.
  - intros q code t H N.
    rewrite <- (app_nil_r q) at 1. rewrite (level_listing q H), N.
    now rewrite while_contents_round.
Qed.

Lemma traversal_is_breadth_first_witness :
  while_contents Scenario.sources "" []
  = (inr (segment "main.c" "C" ++ segment "src/a.py" "A"
          ++ segment "src/B.JS" "B"),
     [get_contents_call "src"]).
Proof.
  rewrite <- (app_nil_r Scenario.sources).
  rewrite (proj1 traversal_is_breadth_first Scenario.sources [] "" [] eq_refl).
  apply (proj2 traversal_is_breadth_first
           (next_level Scenario.sources) (segment "main.c" "C")
           [get_contents_call "src"]); reflexivity.
Defined.

Lemma on_GithubException_trace (e : exn) (t : trace) :
  snd (on_GithubException e t) = t.
Proof.
  destruct e as [[status x|x]|s d]; cbn [on_GithubException];
    [|reflexivity|reflexivity].
  destruct (status =? 401)%Z; [|destruct (status =? 404)%Z]; reflexivity.
Qed.

Lemma while_contents_allowed (q : list ContentFile) :
  forall code t,
    forallb allowed_event t = true ->
    forallb allowed_event (snd (while_contents q code t)) = true.
Proof.
  induction q as [|p d rest IH|p e0 rest IH|p cs rest IH1 IH2] using queue_ind;
    intros code t Ht; rewrite while_contents_round.
  - exact Ht.
  - destruct (should_process_path p); [destruct d|]; apply IH; try exact Ht.
    rewrite forallb_app, Ht. reflexivity.
  - destruct (dir_is_forbidden p) eqn:E; [now apply IH|].
    cbn [snd]. rewrite forallb_app, Ht. simpl. now rewrite E.
  - destruct (dir_is_forbidden p) eqn:E; [now apply IH1|].
    apply IH2. rewrite forallb_app, Ht. simpl. now rewrite E.
Qed.

(** X11. fetch_github_code never asks the hosting service for the listing of
    a directory whose path has a deny-listed name in it. *)
Theorem pruned_directories_are_not_listed (env : Env) (url token : string)
    (t : trace) :
  forallb allowed_event t = true ->
  forallb allowed_event (snd (fetch_github_code env url token t)) = true.
Proof.
  intros Ht. rewrite fetch_github_code_by_body.
  destruct (owner_and_repo url) as [e|[owner repo]]; [exact Ht|].
  rewrite fetch_body_run.
  assert (H1 : forallb allowed_event
                 (t ++ [get_repo_call (owner ++ "/" ++ repo)])%list = true).
  { rewrite forallb_app, Ht. reflexivity. }
  assert (H2 : forallb allowed_event
                 (t ++ [get_repo_call (owner ++ "/" ++ repo);
                        get_contents_call ""])%list = true).
  { rewrite forallb_app, Ht. reflexivity. }
  destruct (get_repo env token _) as [e|repository].
  { now rewrite on_GithubException_trace. }
  destruct (root repository) as [e|contents].
  { now rewrite on_GithubException_trace. }
  pose proof (while_contents_allowed contents "" _ H2) as H.
  destruct (while_contents contents "" _) as [[e|code] t0]; cbn [snd] in H.
  - now rewrite on_GithubException_trace.
  - destruct (String.eqb code ""); [now rewrite on_GithubException_trace|].
    exact H.
Qed.

Lemma pruned_directories_are_not_listed_witness :
  forallb allowed_event
    (snd (fetch_github_code
            (Sample.env (Scenario.repository Scenario.mixed) [])
            Scenario.url "token" [])) = true.
Proof.
  apply (pruned_directories_are_not_listed
           (Sample.env (Scenario.repository Scenario.mixed) [])
           Scenario.url "token" []).
  reflexivity.
Defined.

(** ** The handler, continued *)

Lemma sent_app (t1 t2 : trace) :
  sent (t1 ++ t2)%list = sent t1 + sent t2.
Proof. unfold sent. now rewrite filter_app, length_app. Qed.

Ltac count_sent := rewrite ?sent_app in *; unfold sent in *; simpl in *; lia.

Lemma while_contents_sent (q : list ContentFile) :
  forall code t, sent (snd (while_contents q code t)) = sent t.
Proof.
  induction q as [|p d rest IH|p e0 rest IH|p cs rest IH1 IH2] using queue_ind;
    intros code t; rewrite while_contents_round.
  - reflexivity.
  - destruct (should_process_path p); [destruct d|]; rewrite IH;
      try reflexivity.
    count_sent.
  - destruct (dir_is_forbidden p); [apply IH|].
    cbn [snd]. count_sent.
  - destruct (dir_is_forbidden p); [apply IH1|].
    rewrite IH2. count_sent.
Qed.

(** The fetch sends nothing to the model. *)
Lemma fetch_github_code_sent (env : Env) (url token : string) (t : trace) :
  sent (snd (fetch_github_code env url token t)) = sent t.
Proof.
  rewrite fetch_github_code_by_body.
  destruct (owner_and_repo url) as [e|[owner repo]]; [reflexivity|].
  rewrite fetch_body_run.
  destruct (get_repo env token _) as [e|repository].
  { rewrite on_GithubException_trace. count_sent. }
  destruct (root repository) as [e|contents].
  { rewrite on_GithubException_trace. count_sent. }
  pose proof (while_contents_sent contents ""
                (t ++ [get_repo_call (owner ++ "/" ++ repo);
                       get_contents_call ""])%list) as H.
  destruct (while_contents contents "" _) as [[e|code] t0]; cbn [snd] in H.
  - rewrite on_GithubException_trace. count_sent.
  - destruct (String.eqb code "");
      [rewrite on_GithubException_trace|]; cbn [snd]; count_sent.
Qed.

Lemma on_exception_trace (e : exn) (t : trace) :
  snd (on_exception e t) = t.
Proof. destruct e; reflexivity. Qed.

(** X12. A request sends at most two prompts to the model: none when the
    fetch fails, and two when it succeeds. *)
Theorem model_is_asked_at_most_twice (env : Env) (request : AnalysisRequest)
    (t : trace) :
  sent t <= sent (snd (post_analyse_github env request t)) <= sent t + 2
  /\ (forall e t1,
        fetch_github_code env (clean_input (github_url request))
          (GITHUB_ACCESS_TOKEN env) t = (inl e, t1) ->
        sent (snd (post_analyse_github env request t)) = sent t)
  /\ (forall body,
        fst (post_analyse_github env request t) = Success body ->
        sent (snd (post_analyse_github env request t)) = sent t + 2).
Proof.
  assert (P : forall r : (exn + AnalysisResponse) * trace,
             snd (match r with
                  | (inr response, t') => (Success response, t')
                  | (inl (HTTPException status detail), t') =>
                      (Failure status detail, t')
                  | (inl (Plain e), t') => (Crash e, t')
                  end) = snd r).
  { intros [[[e|s d]|a] t0]; reflexivity. }
  unfold post_analyse_github. rewrite !P.
  pose proof (fetch_github_code_sent env (clean_input (github_url request))
                (GITHUB_ACCESS_TOKEN env) t) as F.
  rewrite analyse_github_code_run. cbv zeta.
  destruct (fetch_github_code env _ _ t) as [[e|code] t1]; cbn [snd] in F.
  { rewrite on_exception_trace.
    split; [split; lia | split].
    - intros e0 t2 _. exact F.
    - intros body H. destruct e; discriminate H. }
  split; [|split; [intros e t2 H; discriminate H|]].
  - destruct (chain_run env (sent t1) _) as [x|a1];
      [cbn [snd]; count_sent|].
    destruct (json_loads env a1) as [x|result];
      [cbn [snd]; count_sent|].
    destruct (getitem result "alignmentSummary") as [e|summary];
      [rewrite on_exception_trace; count_sent|].
    destruct (chain_run env _ (questions_prompt _ _ _)) as [x|a2];
      [cbn [snd]; count_sent|].
    destruct (json_loads env a2) as [x|questions];
      [cbn [snd]; count_sent|].
    destruct (getitem result "alignmentScore") as [e|score];
      [rewrite on_exception_trace; count_sent|].
    destruct (new_AnalysisResponse env score summary questions);
      cbn [snd]; count_sent.
  - intros body.
    destruct (chain_run env (sent t1) _) as [x|a1]; [discriminate|].
    destruct (json_loads env a1) as [x|result]; [discriminate|].
    destruct (getitem result "alignmentSummary") as [e|summary];
      [destruct e; discriminate|].
    destruct (chain_run env _ (questions_prompt _ _ _)) as [x|a2];
      [discriminate|].
    destruct (json_loads env a2) as [x|questions]; [discriminate|].
    destruct (getitem result "alignmentScore") as [e|score];
      [destruct e; discriminate|].
    destruct (new_AnalysisResponse env score summary questions);
      [discriminate|].
    intros _. cbn [snd]. count_sent.
Qed.

(** X13. The score is read from the analysis after the questions have been
    generated: an analysis that has a summary and no score costs the second
    prompt before the request fails with status 500. *)
Theorem missing_score_is_found_late (env : Env) (request : AnalysisRequest)
    (t t1 : trace) (code a1 a2 : string) (result summary questions : pyval)
    (e : exn) :
  let p1 := analyze_prompt code (clean_input (curriculum request)) in
  let p2 := questions_prompt (format_value env summary)
              (clean_input (curriculum request))
              (Str.of_int (question_count request)) in
  fetch_github_code env (clean_input (github_url request))
    (GITHUB_ACCESS_TOKEN env) t = (inr code, t1) ->
  chain_run env (sent t1) p1 = inr a1 ->
  json_loads env a1 = inr result ->
  getitem result "alignmentSummary" = inr summary ->
  chain_run env (sent (t1 ++ [chain_run_call p1])%list) p2 = inr a2 ->
  json_loads env a2 = inr questions ->
  getitem result "alignmentScore" = inl e ->
  exists text,
    post_analyse_github env request t
    = (Failure 500 ("An unexpected error occurred: " ++ text),
       (t1 ++ [chain_run_call p1; chain_run_call p2])%list).
Proof.
  intros p1 p2 Hf Ha1 Hj1 Hg1 Ha2 Hj2 Hg2.
  destruct (getitem_raises _ _ _ Hg2) as [text ->]. exists text.
  unfold post_analyse_github. rewrite analyse_github_code_run. cbv zeta.
  subst p1 p2. rewrite Hf, Ha1, Hj1, Hg1, Ha2, Hj2, Hg2.
  rewrite <- app_assoc. reflexivity.
Qed.

Lemma missing_score_is_found_late_witness :
  exists text,
    post_analyse_github
      (Sample.env (Scenario.repository Scenario.sources)
                  [inr Scenario.summary_only; inr Scenario.two_questions])
      (Scenario.request 5) []
    = (Failure 500 ("An unexpected error occurred: " ++ text),
       [get_repo_call "owner/repo"; get_contents_call "";
        get_contents_call "src";
        chain_run_call (analyze_prompt Scenario.sources_text
                          "implement login with 2FA");
        chain_run_call (questions_prompt "close" "implement login with 2FA"
                          "5")]).
Proof.
  apply (missing_score_is_found_late
           (Sample.env (Scenario.repository Scenario.sources)
                       [inr Scenario.summary_only; inr Scenario.two_questions])
           (Scenario.request 5) []
           [get_repo_call "owner/repo"; get_contents_call "";
            get_contents_call "src"]
           Scenario.sources_text Scenario.summary_only Scenario.two_questions
           (PyDict [("alignmentSummary", PyStr "close")]) (PyStr "close")
           (PyList
              [PyDict [("question", PyStr "q1"); ("lookingFor", PyStr "l1")];
               PyDict [("question", PyStr "q2"); ("lookingFor", PyStr "l2")]])
           (Plain (Exception "'alignmentScore'")));
    reflexivity.
Defined.

(** ** The traversal: unopened directories *)

(** X14. A directory whose path has a deny-listed name in it, as a part or
    inside a longer name, counts for nothing: the loop does what it does on
    the queue without the directory, whatever the directory holds. *)
Theorem unopened_directory_counts_for_nothing (q1 q2 : list ContentFile)
    (p : string) (listing : error + list ContentFile) (code : string)
    (t : trace) :
  dir_is_forbidden p = true ->
  while_contents (q1 ++ dir p listing :: q2) code t
  = while_contents (q1 ++ q2) code t.
Proof.
  intros Hp. revert q2 code t.
  induction q1 as [|c q1 IH]; intros q2 code t.
  - cbn [app]. rewrite (while_contents_round (dir _ _ :: _)), Hp.
    reflexivity.
  - cbn [app]. rewrite (while_contents_round (c :: q1 ++ _ :: _)),
      (while_contents_round (c :: q1 ++ q2)).
    destruct c as [p1 d1|p1 [e1|cs]].
    + destruct (should_process_path p1); [destruct d1|]; apply IH.
    + destruct (dir_is_forbidden p1); [apply IH | reflexivity].
    + destruct (dir_is_forbidden p1); [apply IH|].
      rewrite <- !app_assoc. cbn [app]. apply IH.
Qed.

Lemma unopened_directory_counts_for_nothing_witness :
  while_contents
    ([file "a.py" (inr "A")]
     ++ dir "docs/output" (inr [file "docs/output/b.py" (inr "B")])
     :: [file "c.py" (inr "C")]) "" []
  = while_contents ([file "a.py" (inr "A")] ++ [file "c.py" (inr "C")]) "" [].
Proof.
  apply (unopened_directory_counts_for_nothing [file "a.py" (inr "A")]
           [file "c.py" (inr "C")] "docs/output").
  reflexivity.
Defined.

(** ** The repository identifier, continued *)

Lemma split_one_part (s : string) :
  Str.contains "/" s = false -> Str.split "/" s = [s].
Proof.
  induction s as [|c s IH]; intros H; [reflexivity|].
  cbn [Str.contains] in H. apply orb_false_iff in H. destruct H as [H1 H2].
  cbn [Str.split]. destruct (Ascii.eqb c "/") eqn:E.
  - apply Ascii.eqb_eq in E. subst c. cbn [prefix] in H1.
    destruct (ascii_dec "/" "/") as [_|n]; [|now elim n].
    destruct s; discriminate H1.
  - rewrite (IH H2). reflexivity.
Qed.

(** X15. What stands before the last two parts of the URL plays no role: for
    an owner and a name without a slash, fetch_github_code looks up
    owner/name whatever the scheme, the host or the path before them, and
    also when nothing but the two parts is given. *)
Theorem owner_and_repo_ignore_the_host :
  (forall before owner repo : string,
      Str.contains "/" owner = false ->
      Str.contains "/" repo = false ->
      owner_and_repo (before ++ "/" ++ owner ++ "/" ++ repo)
      = inr (owner, repo))
  /\ (forall owner repo : string,
      Str.contains "/" owner = false ->
      Str.contains "/" repo = false ->
      owner_and_repo (owner ++ "/" ++ repo) = inr (owner, repo)).
Proof.
  split.
  - intros before owner repo Ho Hr.
    apply (owner_and_repo_parts _ (Str.split "/" before)).
    change (before ++ "/" ++ owner ++ "/" ++ repo)
      with (before ++ String "/" (owner ++ String "/" repo)).
    rewrite !split_app, (split_one_part owner Ho), (split_one_part repo Hr).
    reflexivity.
  - intros owner repo Ho Hr. apply (owner_and_repo_parts _ []).
    change (owner ++ "/" ++ repo) with (owner ++ String "/" repo).
    rewrite split_app, (split_one_part owner Ho), (split_one_part repo Hr).
    reflexivity.
Qed.

Lemma owner_and_repo_ignore_the_host_witness :
  owner_and_repo ("ftp://example.org/some/path" ++ "/" ++ "owner" ++ "/"
                  ++ "repo.git")
  = inr ("owner", "repo.git")
  /\ owner_and_repo ("owner" ++ "/" ++ "repo") = inr ("owner", "repo").
Proof.
  split.
  - apply (proj1 owner_and_repo_ignore_the_host); reflexivity.
  - apply (proj2 owner_and_repo_ignore_the_host); reflexivity.
Defined.

(** ** Start-up *)

(** X16. The tokens are taken from config.json exactly when it holds an
    object with both keys and with values that are true in Python: not
    null, false, zero, the empty text, an empty array or an empty object.
    Nothing asks that a token be a text. *)
Theorem load_tokens_succeeds (config github openai : pyval) :
  load_tokens config = inr (github, openai)
  <-> exists items,
        config = PyDict items
        /\ lookup "GITHUB_ACCESS_TOKEN" items = Some github
        /\ lookup "OPENAI_API_KEY" items = Some openai
        /\ truthy github = true
        /\ truthy openai = true.
Proof.
  unfold load_tokens. split.
  - destruct config as [| | | | | |items]; try discriminate.
    cbn [getitem].
    destruct (lookup "GITHUB_ACCESS_TOKEN" items) as [g|] eqn:G;
      [|discriminate].
    destruct (lookup "OPENAI_API_KEY" items) as [o|] eqn:O; [|discriminate].
    destruct (truthy g) eqn:Tg; [|discriminate].
    destruct (truthy o) eqn:To; [|discriminate].
    cbn [negb]. intros H. injection H as <- <-.
    exists items. repeat split; assumption.
  - intros [items [-> [G [O [Tg To]]]]]. cbn [getitem].
    rewrite G, O, Tg, To. reflexivity.
Qed.

(** X17. What start-up raises on an object: both keys are looked up before
    either value is tested, so a missing key of the model is reported even
    when the token of the hosting service is empty, and an empty token of
    the hosting service is reported before an empty key of the model. *)
Theorem load_tokens_fails (items : list (string * pyval)) :
  (lookup "GITHUB_ACCESS_TOKEN" items = None ->
   load_tokens (PyDict items)
   = inl (Plain (Exception "'GITHUB_ACCESS_TOKEN'")))
  /\ (forall github,
      lookup "GITHUB_ACCESS_TOKEN" items = Some github ->
      lookup "OPENAI_API_KEY" items = None ->
      load_tokens (PyDict items) = inl (Plain (Exception "'OPENAI_API_KEY'")))
  /\ (forall github openai,
      lookup "GITHUB_ACCESS_TOKEN" items = Some github ->
      lookup "OPENAI_API_KEY" items = Some openai ->
      truthy github = false ->
      load_tokens (PyDict items)
      = inl (Plain (Exception
               "GITHUB_ACCESS_TOKEN environment variable is not set")))
  /\ (forall github openai,
      lookup "GITHUB_ACCESS_TOKEN" items = Some github ->
      lookup "OPENAI_API_KEY" items = Some openai ->
      truthy github = true ->
      truthy openai = false ->
      load_tokens (PyDict items)
      = inl (Plain (Exception
               "OPENAI_API_KEY environment variable is not set"))).
Proof.
  unfold load_tokens. cbn [getitem]. split; [|split; [|split]].
  - intros ->. reflexivity.
  - intros g -> ->. reflexivity.
  - intros g o -> -> ->. reflexivity.
  - intros g o -> -> -> ->. reflexivity.
Qed.

Lemma load_tokens_fails_witness :
  load_tokens (PyDict [("GITHUB_ACCESS_TOKEN", PyStr "")])
  = inl (Plain (Exception "'OPENAI_API_KEY'"))
  /\ load_tokens (PyDict [("OPENAI_API_KEY", PyStr "");
                          ("GITHUB_ACCESS_TOKEN", PyStr "")])
     = inl (Plain (Exception
              "GITHUB_ACCESS_TOKEN environment variable is not set")).
Proof.
  split.
  - apply (proj1 (proj2 (load_tokens_fails
                           [("GITHUB_ACCESS_TOKEN", PyStr "")])) (PyStr ""));
      reflexivity.
  - apply (proj1 (proj2 (proj2
             (load_tokens_fails [("OPENAI_API_KEY", PyStr "");
                                 ("GITHUB_ACCESS_TOKEN", PyStr "")])))
             (PyStr "") (PyStr "")); reflexivity.
Defined.

(** ** Letter case and padding *)

Lemma lower_char_idempotent (c : ascii) :
  Str.lower_char (Str.lower_char c) = Str.lower_char c.
Proof.
  destruct c as [[] [] [] [] [] [] [] []]; reflexivity.
Qed.

Lemma lower_idempotent (s : string) : Str.lower (Str.lower s) = Str.lower s.
Proof.
  induction s as [|c s IH]; [reflexivity|].
  simpl. now rewrite lower_char_idempotent, IH.
Qed.

(** X18. Letter case plays no role anywhere in a path: the filter and the
    test on directories answer for a path what they answer for its
    lower-case form, so two paths that differ in letter case only are
    treated alike. *)
Theorem paths_are_compared_in_lower_case :
  (forall path : string,
      should_process_path (Str.lower path) = should_process_path path
      /\ dir_is_forbidden (Str.lower path) = dir_is_forbidden path)
  /\ (forall p q : string,
      Str.lower p = Str.lower q ->
      should_process_path p = should_process_path q
      /\ dir_is_forbidden p = dir_is_forbidden q).
Proof.
  split.
  - intros path. split.
    + apply should_process_path_lower, lower_idempotent.
    + unfold dir_is_forbidden. now rewrite lower_idempotent.
  - intros p q E. split.
    + now apply should_process_path_lower.
    + unfold dir_is_forbidden. now rewrite E.
Qed.

Lemma paths_are_compared_in_lower_case_witness :
  should_process_path "SRC/NODE_MODULES/Index.JS"
  = should_process_path "src/node_modules/index.js"
  /\ dir_is_forbidden "SRC/NODE_MODULES" = dir_is_forbidden "src/node_modules".
Proof.
  split.
  - apply (proj2 paths_are_compared_in_lower_case
             "SRC/NODE_MODULES/Index.JS" "src/node_modules/index.js").
    reflexivity.
  - apply (proj2 paths_are_compared_in_lower_case
             "SRC/NODE_MODULES" "src/node_modules").
    reflexivity.
Defined.

(** X19. Control characters and whitespace around the URL and around the
    requirement of a request change nothing in what the handler does and
    answers. *)
Theorem padded_request_gets_the_same_reply (env : Env)
    (before1 after1 before2 after2 url requirement : string) (count : Z)
    (t : trace) :
  all_blank before1 = true -> all_blank after1 = true ->
  all_blank before2 = true -> all_blank after2 = true ->
  post_analyse_github env
    {| github_url := before1 ++ url ++ after1;
       curriculum := before2 ++ requirement ++ after2;
       question_count := count |} t
  = post_analyse_github env
      {| github_url := url;
         curriculum := requirement;
         question_count := count |} t.
Proof.
  intros B1 A1 B2 A2.
  unfold post_analyse_github, analyse_github_code.
  cbn [github_url curriculum question_count].
  rewrite (clean_input_blank_before before1 (url ++ after1) B1).
  rewrite (clean_input_blank_after after1 A1 url).
  rewrite (clean_input_blank_before before2 (requirement ++ after2) B2).
  rewrite (clean_input_blank_after after2 A2 requirement).
  reflexivity.
Qed.

Lemma padded_request_gets_the_same_reply_witness :
  post_analyse_github
    (Sample.env (Scenario.repository Scenario.sources) Scenario.answers)
    {| github_url := "  " ++ "https://github.com/owner/repo" ++ LF;
       curriculum := LF ++ "implement login with 2FA" ++ "   ";
       question_count := 2 |} []
  = post_analyse_github
      (Sample.env (Scenario.repository Scenario.sources) Scenario.answers)
      {| github_url := "https://github.com/owner/repo";
         curriculum := "implement login with 2FA";
         question_count := 2 |} [].
Proof.
  apply (padded_request_gets_the_same_reply
           (Sample.env (Scenario.repository Scenario.sources) Scenario.answers)
           "  " LF LF "   "); reflexivity.
Defined.
